(** * The chat orchestration pipeline of the shopping assistant API

    A shallow embedding of [fastapi.py]: the process-wide [agents_store]
    dictionary, the session bundles it holds, and the endpoints that read
    and mutate it ([setup_agents], [process_chat], [get_messages],
    [clear_conversation], [delete_session], [upload_image]).

    The endpoints that only read ([root], [health_check], [list_sessions])
    are left out.

    Requests are handled one at a time: an endpoint is a function from the
    state of the process before the request to its response and the state
    after it.  The three collaborators (conversation agent, shopping team,
    image processor) live in modules of their own; they enter the model as
    an interface whose methods may change the private state of the object
    and may raise. *)

From stdpp Require Import gmap strings list fin_maps pretty.
From Stdlib Require Import Init.Byte Ascii.

Open Scope string_scope.
Open Scope list_scope.

(** ** Python values used by the endpoints *)

Definition bytes := list byte.

(** Exceptions.  [Exception msg] stands for any Python exception that is
    not an [HTTPException]; [msg] is what [str(e)] returns. *)
Inductive exn :=
| Exception (msg : string)
| HTTPException (status_code : nat) (detail : string).

(** [str(e)]; an [HTTPException] prints as "status: detail". *)
Definition str (e : exn) : string :=
  match e with
  | Exception msg => msg
  | HTTPException status_code detail => pretty status_code ++ ": " ++ detail
  end.

(** The result of evaluating a Python expression or a call. *)
Inductive Outcome (A : Type) :=
| Ok (a : A)
| Raise (e : exn).
Arguments Ok {A} a.
Arguments Raise {A} e.

(** Truth value of a [str]: the empty string is falsy. *)
Definition truthy (s : string) : bool :=
  match s with
  | EmptyString => false
  | String _ _ => true
  end.

(** [s.split(sep)] for a one-character separator: the segments between
    the occurrences of [sep], never an empty list. *)
Fixpoint split (sep : ascii) (s : string) : list string :=
  match s with
  | EmptyString => [EmptyString]
  | String c rest =>
      if Ascii.eqb c sep then EmptyString :: split sep rest
      else match split sep rest with
           | [] => [String c EmptyString]
           | seg :: segs => String c seg :: segs
           end
  end.

(** [l[i]]: an index out of range raises [IndexError]. *)
Definition index {A} (l : list A) (i : nat) : Outcome A :=
  match l !! i with
  | Some x => Ok x
  | None => Raise (Exception "list index out of range")
  end.

(** [image_data.split(',')[1]], the part of a data URI that is decoded. *)
Definition encoded_part (img : string) : Outcome string :=
  index (split "," img) 1.

(** The convention for the image payload in the words of the interface
    description: the prefix up to the first comma is discarded, the
    remainder is what is left.  [None] when there is no comma. *)
Fixpoint remainder_after_first_comma (s : string) : option string :=
  match s with
  | EmptyString => None
  | String c rest =>
      if Ascii.eqb c "," then Some rest else remainder_after_first_comma rest
  end.

(** The part of a string before its first comma (all of it when it has
    none). *)
Fixpoint before_first_comma (s : string) : string :=
  match s with
  | EmptyString => EmptyString
  | String c rest =>
      if Ascii.eqb c "," then EmptyString else String c (before_first_comma rest)
  end.

Fixpoint has_comma (s : string) : bool :=
  match s with
  | EmptyString => false
  | String c rest => Ascii.eqb c "," || has_comma rest
  end.

(** ** Pydantic models *)

Record ConfigRequest := {
  api_key_llm : string;
  api_key_search_tool : string;
  api_key_firecrawl : string;
  web_search_mode : string;
  llm_mode : string
}.

Record ChatRequest := {
  session_id : string;
  message : string;
  image_data : option string
}.

Record ChatResponse := {
  type : string;
  resp_message : string;
  products_html : option string;
  continue_conversation : bool;
  resp_timestamp : string
}.

(** [MessageModel(...).dict()], an entry of a session's message list. *)
Record MessageModel := {
  role : string;
  content : string;
  timestamp : string;
  msg_type : option string
}.

Record SessionResponse := {
  sr_session_id : string;
  sr_success : bool;
  sr_message : string
}.

(** The dictionary [{"success": ..., "message": ...}] returned by the
    clear and delete endpoints. *)
Record StatusResponse := {
  success : bool;
  status_message : string
}.

(** The dictionary returned by [upload_image]. *)
Record UploadResponse := {
  up_success : bool;
  extracted_text : string;
  filename : option string
}.

(** An [UploadFile]: the declared name and content type, and the result of
    [await file.read()]. *)
Record UploadFile := {
  file_filename : option string;
  content_type : option string;
  file_read : Outcome bytes
}.

(** ** The environment of the process

    The standard-library services the endpoints call: the wall clock
    ([datetime.now()], read for the [n]-th time), [uuid.uuid4()] and
    [base64.b64decode]. *)
Class Runtime := {
  isoformat : nat -> string;
  uuid4 : nat -> string;
  b64decode : string -> Outcome bytes
}.

(** The dictionary returned by [ConversationAgent.process_query].  The
    key ["data"] carries the extracted shopping intent and may be absent;
    looking up an absent key raises [KeyError]. *)
Record ConversationResponse (Payload : Type) := {
  have_further_conversation : bool;
  conv_message : string;
  data : option Payload
}.
Arguments have_further_conversation {Payload} _.
Arguments conv_message {Payload} _.
Arguments data {Payload} _.

(** The collaborators: the classes [ConversationAgent], [ShoppingTeam] and
    [ProductImageProcessingAgent].  Each has a private state; a
    constructor may raise, a method returns its outcome together with the
    state it leaves the object in.  [run] and [process_image] return an
    object of which the endpoints read [.content] only. *)
Class Collaborators := {
  ConversationState : Type;
  ShoppingState : Type;
  ImageState : Type;
  Payload : Type;
  ConversationAgent : forall (api_key llm_mode : string), Outcome ConversationState;
  process_query : ConversationState -> string ->
                  Outcome (ConversationResponse Payload) * ConversationState;
  reset : ConversationState -> Outcome unit * ConversationState;
  ShoppingTeam : forall (api_key_llm api_key_search_tool search_tool llm_mode
                         firecrawl_api_key : string), Outcome ShoppingState;
  run : ShoppingState -> Payload -> Outcome string * ShoppingState;
  ProductImageProcessingAgent : forall (api_key llm_mode : string), Outcome ImageState;
  process_image : ImageState -> bytes -> string -> Outcome string * ImageState
}.

(** A Python object: its identity and its current state.  A method call
    changes the state and keeps the identity; only a constructor call
    yields a new identity. *)
Record object (St : Type) := {
  oid : nat;
  ostate : St
}.
Arguments oid {St} _.
Arguments ostate {St} _.

Section Model.
Context `{Runtime} `{Collaborators}.

(** The value stored in [agents_store] under a session id. *)
Record Session := {
  conversation_agent : object ConversationState;
  shopping_team : object ShoppingState;
  image_processor : object ImageState;
  messages : list MessageModel;
  created_at : nat
}.

(** The calls a request makes to the decoder and to the methods of the
    collaborators, in the order made; [target] is the identity of the
    object called. *)
Inductive Event :=
| Call_b64decode (s : string)
| Call_process_image (target : nat) (image_bytes : bytes) (user_input : string)
| Call_process_query (target : nat) (user_input : string)
| Call_reset (target : nat)
| Call_run (target : nat) (payload : Payload).

(** The state of the process: the global dictionary, the number of clock
    readings and of uuids drawn so far, the next free object identity, and
    the calls made so far. *)
Record World := {
  agents_store : gmap string Session;
  clock : nat;
  uuids : nat;
  next_oid : nat;
  calls : list Event
}.

Definition set_store (f : gmap string Session -> gmap string Session) (w : World) : World :=
  {| agents_store := f (agents_store w); clock := clock w; uuids := uuids w;
     next_oid := next_oid w; calls := calls w |}.

Definition log_call (ev : Event) (w : World) : World :=
  {| agents_store := agents_store w; clock := clock w; uuids := uuids w;
     next_oid := next_oid w; calls := calls w ++ [ev] |}.

Definition tick (w : World) : World :=
  {| agents_store := agents_store w; clock := S (clock w); uuids := uuids w;
     next_oid := next_oid w; calls := calls w |}.

(** ** Computations: state of the process and exceptions *)

Definition M (A : Type) : Type := World -> Outcome A * World.

Definition ret {A} (a : A) : M A := fun w => (Ok a, w).

Definition raise {A} (e : exn) : M A := fun w => (Raise e, w).

Definition bind {A B} (m : M A) (k : A -> M B) : M B :=
  fun w =>
    match m w with
    | (Ok a, w') => k a w'
    | (Raise e, w') => (Raise e, w')
    end.

(** [try: body  except Exception as e: handler e]. *)
Definition try_except {A} (body : M A) (handler : exn -> M A) : M A :=
  fun w =>
    match body w with
    | (Ok a, w') => (Ok a, w')
    | (Raise e, w') => handler e w'
    end.

Definition lift {A} (o : Outcome A) : M A := fun w => (o, w).

Declare Scope py_scope.
Delimit Scope py_scope with py.
Notation "'let*' x ':=' m 'in' k" := (bind m (fun x => k))
  (at level 10, x name, m at level 100, k at level 200) : py_scope.
Notation "m ';;;' k" := (bind m (fun _ => k))
  (at level 100, k at level 200, right associativity) : py_scope.
Open Scope py_scope.

(** *** Primitive steps *)

(** [datetime.now()]: one more reading of the clock. *)
Definition datetime_now : M nat := fun w => (Ok (clock w), tick w).

(** [datetime.now().isoformat()]. *)
Definition now : M string :=
  let* t := datetime_now in ret (isoformat t).

(** [session_id in agents_store]. *)
Definition contains (session_id : string) : M bool :=
  fun w => (Ok (bool_decide (is_Some (agents_store w !! session_id))), w).

(** [agents_store[session_id]]; an absent key raises [KeyError]. *)
Definition the_session (session_id : string) : M Session :=
  fun w =>
    match agents_store w !! session_id with
    | Some agents => (Ok agents, w)
    | None => (Raise (Exception ("'" ++ session_id ++ "'")), w)
    end.

(** The dictionary under [session_id] is mutated in place. *)
Definition update_session (session_id : string) (agents : Session) : M unit :=
  fun w => (Ok tt, set_store <[session_id := agents]> w).

Definition with_messages (l : list MessageModel) (agents : Session) : Session :=
  {| conversation_agent := conversation_agent agents;
     shopping_team := shopping_team agents;
     image_processor := image_processor agents;
     messages := l;
     created_at := created_at agents |}.

Definition with_conversation_agent (o : object ConversationState) (agents : Session) : Session :=
  {| conversation_agent := o;
     shopping_team := shopping_team agents;
     image_processor := image_processor agents;
     messages := messages agents;
     created_at := created_at agents |}.

Definition with_shopping_team (o : object ShoppingState) (agents : Session) : Session :=
  {| conversation_agent := conversation_agent agents;
     shopping_team := o;
     image_processor := image_processor agents;
     messages := messages agents;
     created_at := created_at agents |}.

Definition with_image_processor (o : object ImageState) (agents : Session) : Session :=
  {| conversation_agent := conversation_agent agents;
     shopping_team := shopping_team agents;
     image_processor := o;
     messages := messages agents;
     created_at := created_at agents |}.

(** The object after a method call: same identity, new state. *)
Definition mutated {St} (o : object St) (st : St) : object St :=
  {| oid := oid o; ostate := st |}.

(** [agents['messages'].append(m)]. *)
Definition append_message (session_id : string) (m : MessageModel) : M unit :=
  let* agents := the_session session_id in
  update_session session_id (with_messages (messages agents ++ [m]) agents).

(** [base64.b64decode(s)]. *)
Definition call_b64decode (s : string) : M bytes :=
  fun w => (b64decode s, log_call (Call_b64decode s) w).

(** [agents['image_processor'].process_image(image_data=..., user_input=...)],
    read at [.content]. *)
Definition call_process_image (session_id : string) (image_bytes : bytes)
    (user_input : string) : M string :=
  let* agents := the_session session_id in
  let o := image_processor agents in
  let r := process_image (ostate o) image_bytes user_input in
  update_session session_id (with_image_processor (mutated o (snd r)) agents) ;;;
  fun w => (fst r, log_call (Call_process_image (oid o) image_bytes user_input) w).

(** [agents['conversation_agent'].process_query(user_input)]. *)
Definition call_process_query (session_id : string) (user_input : string)
    : M (ConversationResponse Payload) :=
  let* agents := the_session session_id in
  let o := conversation_agent agents in
  let r := process_query (ostate o) user_input in
  update_session session_id (with_conversation_agent (mutated o (snd r)) agents) ;;;
  fun w => (fst r, log_call (Call_process_query (oid o) user_input) w).

(** [agents['conversation_agent'].reset()]. *)
Definition call_reset (session_id : string) : M unit :=
  let* agents := the_session session_id in
  let o := conversation_agent agents in
  let r := reset (ostate o) in
  update_session session_id (with_conversation_agent (mutated o (snd r)) agents) ;;;
  fun w => (fst r, log_call (Call_reset (oid o)) w).

(** [agents['shopping_team'].run(payload=...)], read at [.content]. *)
Definition call_run (session_id : string) (payload : Payload) : M string :=
  let* agents := the_session session_id in
  let o := shopping_team agents in
  let r := run (ostate o) payload in
  update_session session_id (with_shopping_team (mutated o (snd r)) agents) ;;;
  fun w => (fst r, log_call (Call_run (oid o) payload) w).

(** A constructor call: a new object, unless the constructor raises. *)
Definition new {St} (ctor : Outcome St) : M (object St) :=
  fun w =>
    match ctor with
    | Ok st =>
        (Ok {| oid := next_oid w; ostate := st |},
         {| agents_store := agents_store w; clock := clock w; uuids := uuids w;
            next_oid := S (next_oid w); calls := calls w |})
    | Raise e => (Raise e, w)
    end.

(** [str(uuid.uuid4())]. *)
Definition fresh_uuid : M string :=
  fun w =>
    (Ok (uuid4 (uuids w)),
     {| agents_store := agents_store w; clock := clock w; uuids := S (uuids w);
        next_oid := next_oid w; calls := calls w |}).

(** [conversation_response["data"]]. *)
Definition response_data (r : ConversationResponse Payload) : Outcome Payload :=
  match data r with
  | Some d => Ok d
  | None => Raise (Exception "'data'")
  end.

(** ** The endpoints *)

(** [POST /api/config]. *)
Definition setup_agents (config : ConfigRequest) : M SessionResponse :=
  if negb (truthy (api_key_llm config) && truthy (api_key_search_tool config)
           && truthy (api_key_firecrawl config))
  then raise (HTTPException 400 "Missing required API keys")
  else
    let* session_id := fresh_uuid in
    try_except
      (let* conv := new (ConversationAgent (api_key_llm config) (llm_mode config)) in
       let* team := new (ShoppingTeam (api_key_llm config) (api_key_search_tool config)
                           (web_search_mode config) (llm_mode config)
                           (api_key_firecrawl config)) in
       let* img := new (ProductImageProcessingAgent (api_key_llm config) (llm_mode config)) in
       let* created := datetime_now in
       update_session session_id
         {| conversation_agent := conv; shopping_team := team; image_processor := img;
            messages := []; created_at := created |} ;;;
       ret {| sr_session_id := session_id; sr_success := true;
              sr_message := "Agents initialized successfully" |})
      (fun e => raise (HTTPException 500 ("Failed to initialize agents: " ++ str e))).

(** Step 1 of [process_chat]: the text the rest of the turn works with.
    With a truthy [image_data], element 1 of its split at commas is
    decoded and handed to the image processor together with the text of
    the request; the processor's answer takes the place of that text. *)
Definition image_step (chat_request : ChatRequest) (user_input : string) : M string :=
  match image_data chat_request with
  | Some img =>
      if truthy img then
        let* encoded := lift (encoded_part img) in
        let* image_bytes := call_b64decode encoded in
        let* image_response :=
          call_process_image (session_id chat_request) image_bytes user_input in
        ret image_response
      else ret user_input
  | None => ret user_input
  end.

(** Step 3 of [process_chat], the branch on the state of the conversation. *)
Definition respond (session_id : string)
    (conversation_response : ConversationResponse Payload) : M ChatResponse :=
  if have_further_conversation conversation_response then
    let* ts := now in
    append_message session_id
      {| role := "assistant"; content := conv_message conversation_response;
         timestamp := ts; msg_type := None |} ;;;
    let* ts' := now in
    ret {| type := "conversation"; resp_message := conv_message conversation_response;
           products_html := None; continue_conversation := true;
           resp_timestamp := ts' |}
  else
    let* ts := now in
    append_message session_id
      {| role := "assistant"; content := conv_message conversation_response;
         timestamp := ts; msg_type := None |} ;;;
    let* payload := lift (response_data conversation_response) in
    let* shopping_result := call_run session_id payload in
    let* ts' := now in
    append_message session_id
      {| role := "assistant"; content := shopping_result;
         timestamp := ts'; msg_type := Some "product_results" |} ;;;
    let* ts'' := now in
    ret {| type := "product_search"; resp_message := conv_message conversation_response;
           products_html := Some shopping_result; continue_conversation := false;
           resp_timestamp := ts'' |}.

(** The user message is added to the history, then step 2 and step 3 of
    [process_chat]: the conversation agent is asked and its answer is
    handled. *)
Definition conversation_step (session_id : string) (user_input : string) : M ChatResponse :=
  let* ts := now in
  append_message session_id
    {| role := "user"; content := user_input; timestamp := ts; msg_type := None |} ;;;
  let* conversation_response := call_process_query session_id user_input in
  respond session_id conversation_response.

(** The body of the [try] of [process_chat]. *)
Definition chat_turn (chat_request : ChatRequest) : M ChatResponse :=
  let* user_input := image_step chat_request (message chat_request) in
  conversation_step (session_id chat_request) user_input.

(** [POST /api/chat]. *)
Definition process_chat (chat_request : ChatRequest) : M ChatResponse :=
  let* known := contains (session_id chat_request) in
  if negb known
  then raise (HTTPException 404 "Session not found. Please configure agents first.")
  else
    try_except (chat_turn chat_request)
      (fun e => raise (HTTPException 500 ("Processing error: " ++ str e))).

(** [GET /api/messages/{session_id}]. *)
Definition get_messages (session_id : string) : M (list MessageModel) :=
  let* known := contains session_id in
  if known then
    let* agents := the_session session_id in
    ret (messages agents)
  else ret [].

(** [POST /api/clear/{session_id}]. *)
Definition clear_conversation (session_id : string) : M StatusResponse :=
  let* known := contains session_id in
  if negb known then raise (HTTPException 404 "Session not found")
  else
    try_except
      (let* agents := the_session session_id in
       update_session session_id (with_messages [] agents) ;;;
       call_reset session_id ;;;
       ret {| success := true; status_message := "Conversation cleared" |})
      (fun e => raise (HTTPException 500 ("Failed to clear conversation: " ++ str e))).

(** [DELETE /api/session/{session_id}]. *)
Definition delete_session (session_id : string) : M StatusResponse :=
  let* known := contains session_id in
  if known then
    (fun w => (Ok tt, set_store (delete session_id) w)) ;;;
    ret {| success := true; status_message := "Session deleted" |}
  else raise (HTTPException 404 "Session not found").

(** [POST /api/upload-image/{session_id}]. *)
Definition upload_image (session_id : string) (file : UploadFile) : M UploadResponse :=
  let* known := contains session_id in
  if negb known then raise (HTTPException 404 "Session not found")
  else
    let* declared :=
      match content_type file with
      | Some ct => ret ct
      | None => raise (Exception "'NoneType' object has no attribute 'startswith'")
      end in
    if negb (String.prefix "image/" declared)
    then raise (HTTPException 400 "File must be an image")
    else
      try_except
        (let* file_content := lift (file_read file) in
         let* image_response := call_process_image session_id file_content "" in
         ret {| up_success := true; extracted_text := image_response;
                filename := file_filename file |})
        (fun e => raise (HTTPException 500 ("Image processing error: " ++ str e))).

(** A request to the API, and the state of the process once it is served. *)
Inductive Request :=
| PostConfig (config : ConfigRequest)
| PostChat (chat_request : ChatRequest)
| GetMessages (session_id : string)
| PostClear (session_id : string)
| DeleteSession (session_id : string)
| PostUploadImage (session_id : string) (file : UploadFile).

Definition serve (r : Request) (w : World) : World :=
  match r with
  | PostConfig config => snd (setup_agents config w)
  | PostChat chat_request => snd (process_chat chat_request w)
  | GetMessages session_id => snd (get_messages session_id w)
  | PostClear session_id => snd (clear_conversation session_id w)
  | DeleteSession session_id => snd (delete_session session_id w)
  | PostUploadImage session_id file => snd (upload_image session_id file w)
  end.

Definition serve_all (rs : list Request) (w : World) : World :=
  foldl (fun w r => serve r w) w rs.

(** ** Notions used to state the properties *)

(** Two values of a session entry belong to the same bundle: the three
    collaborator objects are the same objects (whatever their state) and
    the creation time is the same. *)
Definition same_bundle (s s' : Session) : Prop :=
  oid (conversation_agent s') = oid (conversation_agent s) /\
  oid (shopping_team s') = oid (shopping_team s) /\
  oid (image_processor s') = oid (image_processor s) /\
  created_at s' = created_at s.

(** Modelled from the spec: the body of [ConversationAgent.reset] (module
    [conversation]) is missing from the sources.  The contract of the
    adapter is that [reset()] returns, and returns the engine to its
    initial dialogue state; [initial] tells which states those are. *)
Definition reset_returns_to_initial (initial : ConversationState -> Prop) : Prop :=
  forall st, fst (reset st) = Ok tt /\ initial (snd (reset st)).

(** The three kinds of message a turn appends. *)
Definition user_message (text ts : string) : MessageModel :=
  {| role := "user"; content := text; timestamp := ts; msg_type := None |}.

Definition assistant_message (text ts : string) : MessageModel :=
  {| role := "assistant"; content := text; timestamp := ts; msg_type := None |}.

Definition product_message (text ts : string) : MessageModel :=
  {| role := "assistant"; content := text; timestamp := ts;
     msg_type := Some "product_results" |}.

(** The process [w] after a request that left the entry of [session_id]
    as [s'], read the clock [ticks] times and made the calls [evs]. *)
Definition world_after (w : World) (session_id : string) (s' : Session)
    (ticks : nat) (evs : list Event) : World :=
  {| agents_store := <[session_id := s']> (agents_store w);
     clock := clock w + ticks;
     uuids := uuids w;
     next_oid := next_oid w;
     calls := calls w ++ evs |}.

(** The entry of a session after a turn: the collaborators in the states
    the turn left them in, and the messages it appended. *)
Definition session_after (s : Session) (cst : ConversationState) (sst : ShoppingState)
    (ist : ImageState) (appended : list MessageModel) : Session :=
  {| conversation_agent := mutated (conversation_agent s) cst;
     shopping_team := mutated (shopping_team s) sst;
     image_processor := mutated (image_processor s) ist;
     messages := messages s ++ appended;
     created_at := created_at s |}.

Definition is_image_call (ev : Event) : bool :=
  match ev with
  | Call_b64decode _ | Call_process_image _ _ _ => true
  | _ => false
  end.

Definition is_run (ev : Event) : bool :=
  match ev with Call_run _ _ => true | _ => false end.

Definition is_product_results (m : MessageModel) : bool :=
  bool_decide (msg_type m = Some "product_results").

End Model.


(** ** A concrete environment

    An executable instance of the environment and of the collaborators, on
    which the endpoints can be run. *)

(** The position of a character in the base64 alphabet. *)
Definition b64_digit (c : ascii) : option N :=
  let n := N_of_ascii c in
  if (65 <=? n)%N && (n <=? 90)%N then Some (n - 65)%N
  else if (97 <=? n)%N && (n <=? 122)%N then Some (n - 71)%N
  else if (48 <=? n)%N && (n <=? 57)%N then Some (n + 4)%N
  else if (n =? 43)%N then Some 62%N
  else if (n =? 47)%N then Some 63%N
  else None.

Definition byte_of_N (n : N) : byte := byte_of_ascii (ascii_of_N (n mod 256)).

(** The decoding loop of [base64.b64decode] in its default, lenient mode:
    characters outside the alphabet are skipped, a pad sequence that
    completes a quantum ends the input, and an incomplete quantum at the
    end is an error.  [quad_pos] is the position in the current quantum,
    [leftchar] the bits carried over, [pads] the pads seen in a row and
    [seen] the number of alphabet characters consumed. *)
Fixpoint a2b_base64 (quad_pos : nat) (leftchar : N) (pads : nat) (seen : nat)
    (s : string) : Outcome bytes :=
  match s with
  | EmptyString =>
      match quad_pos with
      | 0 => Ok []
      | 1 => Raise (Exception
               ("Invalid base64-encoded string: number of data characters ("
                ++ pretty seen ++ ") cannot be 1 more than a multiple of 4"))
      | _ => Raise (Exception "Incorrect padding")
      end
  | String c rest =>
      if Ascii.eqb c "=" then
        if Nat.leb 2 quad_pos && Nat.leb 4 (quad_pos + S pads) then Ok []
        else a2b_base64 quad_pos leftchar (if Nat.leb 2 quad_pos then S pads else pads) seen rest
      else
        match b64_digit c with
        | None => a2b_base64 quad_pos leftchar pads seen rest
        | Some d =>
            match quad_pos with
            | 0 => a2b_base64 1 d 0 (S seen) rest
            | 1 => match a2b_base64 2 (N.land d 15) 0 (S seen) rest with
                   | Ok out => Ok (byte_of_N (N.lor (N.shiftl leftchar 2) (N.shiftr d 4)) :: out)
                   | Raise e => Raise e
                   end
            | 2 => match a2b_base64 3 (N.land d 3) 0 (S seen) rest with
                   | Ok out => Ok (byte_of_N (N.lor (N.shiftl leftchar 4) (N.shiftr d 2)) :: out)
                   | Raise e => Raise e
                   end
            | _ => match a2b_base64 0 0 0 (S seen) rest with
                   | Ok out => Ok (byte_of_N (N.lor (N.shiftl leftchar 6) d) :: out)
                   | Raise e => Raise e
                   end
            end
        end
  end.

Fixpoint is_ascii (s : string) : bool :=
  match s with
  | EmptyString => true
  | String c rest => (N_of_ascii c <? 128)%N && is_ascii rest
  end.

Definition py_b64decode (s : string) : Outcome bytes :=
  if is_ascii s then a2b_base64 0 0 0 0 s
  else Raise (Exception "string argument should contain only ASCII characters").

Definition sample_runtime : Runtime := {|
  isoformat := fun n =>
    ("2025-01-01T00:00:" ++ (if Nat.ltb n 10 then "0" else "") ++ pretty n)%string;
  uuid4 := fun n => ("session-" ++ pretty n)%string;
  b64decode := py_b64decode
|}.

(** A conversation agent that remembers what it was told, asks one
    question and then hands everything it heard to the search; a shopping
    team that counts its searches; an image processor that counts the
    images it described.  Texts and payloads reserved for failures make
    every error path reachable. *)
Definition sample_process_query (heard : list string) (user_input : string)
    : Outcome (ConversationResponse (list string)) * list string :=
  if String.eqb user_input "" then (Raise (Exception "empty query"), heard)
  else
    match heard with
    | [] =>
        (Ok {| have_further_conversation := true;
               conv_message := "What size and budget?";
               data := None |}, [user_input])
    | _ :: _ =>
        (Ok {| have_further_conversation := false;
               conv_message := "Searching for products";
               data := Some (heard ++ [user_input])%list |}, (heard ++ [user_input])%list)
    end.

Definition sample_run (searches : nat) (payload : list string) : Outcome string * nat :=
  if bool_decide ("out of stock" ∈ payload)
  then (Raise (Exception "search failed"), S searches)
  else (Ok ("<ul>" ++ String.concat ";" payload ++ "</ul>")%string, S searches).

Definition sample_process_image (seen : nat) (image_bytes : bytes) (user_input : string)
    : Outcome string * nat :=
  match image_bytes with
  | [] => (Raise (Exception "empty image"), seen)
  | _ :: _ => (Ok "red running shoes", S seen)
  end.

Definition sample_collaborators : Collaborators := {|
  ConversationState := list string;
  ShoppingState := nat;
  ImageState := nat;
  Payload := list string;
  ConversationAgent := fun _ _ => Ok [];
  process_query := sample_process_query;
  reset := fun _ => (Ok tt, []);
  ShoppingTeam := fun _ _ _ _ _ => Ok 0;
  run := sample_run;
  ProductImageProcessingAgent := fun _ _ => Ok 0;
  process_image := sample_process_image
|}.

Definition sample_config : ConfigRequest := {|
  api_key_llm := "sk-llm";
  api_key_search_tool := "tvly-search";
  api_key_firecrawl := "fc-crawl";
  web_search_mode := "Tavily";
  llm_mode := "OpenAI"
|}.

Definition empty_world `{Runtime} `{Collaborators} : World :=
  {| agents_store := ∅; clock := 0; uuids := 0; next_oid := 0; calls := [] |}.

(** The process after one successful [POST /api/config]: a single session
    with the id ["session-0"]. *)
Definition sample_world : @World sample_collaborators :=
  snd (@setup_agents sample_runtime sample_collaborators sample_config
         (@empty_world sample_runtime sample_collaborators)).

Definition sample_session : @Session sample_collaborators :=
  @Build_Session sample_collaborators
    {| oid := 0; ostate := [] |}
    {| oid := 1; ostate := 0 |}
    {| oid := 2; ostate := 0 |}
    [] 0.

Definition text_request (sid text : string) : ChatRequest :=
  {| session_id := sid; message := text; image_data := None |}.

Definition image_request (sid text img : string) : ChatRequest :=
  {| session_id := sid; message := text; image_data := Some img |}.

(** The process after a first turn, in which the agent asked for more. *)
Definition asked_world : @World sample_collaborators :=
  snd (@process_chat sample_runtime sample_collaborators
         (text_request "session-0" "I want running shoes") sample_world).

Definition asked_session : @Session sample_collaborators :=
  @Build_Session sample_collaborators
    {| oid := 0; ostate := ["I want running shoes"] |}
    {| oid := 1; ostate := 0 |}
    {| oid := 2; ostate := 0 |}
    [user_message "I want running shoes" "2025-01-01T00:00:01";
     assistant_message "What size and budget?" "2025-01-01T00:00:02"]
    0.

Definition sample_upload : UploadFile :=
  {| file_filename := Some "shoe.png";
     content_type := Some "image/png";
     file_read := Ok ["x"%byte] |}.

(** The process after the session is deleted, and after three more
    requests: a chat turn on the deleted session, a new configuration and
    a read of the messages of the deleted session. *)
Definition deleted_world : @World sample_collaborators :=
  snd (@delete_session sample_collaborators "session-0" asked_world).

Definition later_world : @World sample_collaborators :=
  @serve_all sample_runtime sample_collaborators
    [PostChat (text_request "session-0" "size 10, under $100");
     PostConfig sample_config;
     GetMessages "session-0"]
    deleted_world.

(** ** Further notions

    The session a request addresses; a configuration request addresses
    none. *)
Definition request_session (r : Request) : option string :=
  match r with
  | PostConfig _ => None
  | PostChat chat_request => Some (session_id chat_request)
  | GetMessages sid => Some sid
  | PostClear sid => Some sid
  | DeleteSession sid => Some sid
  | PostUploadImage sid _ => Some sid
  end.

(** The requests that replace or remove the history of the session [sid]:
    clearing it, deleting it, and a configuration (which stores a new
    bundle). *)
Definition may_reset (sid : string) (r : Request) : bool :=
  match r with
  | PostConfig _ => true
  | PostClear k => String.eqb k sid
  | DeleteSession k => String.eqb k sid
  | _ => false
  end.

Definition is_query `{Collaborators} (ev : Event) : bool :=
  match ev with Call_process_query _ _ => true | _ => false end.

(** A configuration with an empty key. *)
Definition incomplete_config : ConfigRequest := {|
  api_key_llm := "sk-llm";
  api_key_search_tool := "tvly-search";
  api_key_firecrawl := "";
  web_search_mode := "Tavily";
  llm_mode := "OpenAI"
|}.

(** A configuration asking for a search tool the fragile shopping team
    below does not know. *)
Definition unsupported_config : ConfigRequest := {|
  api_key_llm := "sk-llm";
  api_key_search_tool := "key";
  api_key_firecrawl := "fc-crawl";
  web_search_mode := "AltaVista";
  llm_mode := "OpenAI"
|}.

(** Collaborators like the sample ones, except that the shopping team
    cannot be built for a search tool other than Tavily and that the
    conversation agent refuses to reset a dialogue that has not begun. *)
Definition fragile_collaborators : Collaborators := {|
  ConversationState := list string;
  ShoppingState := nat;
  ImageState := nat;
  Payload := list string;
  ConversationAgent := fun _ _ => Ok [];
  process_query := sample_process_query;
  reset := fun heard =>
    match heard with
    | [] => (Raise (Exception "nothing to reset"), heard)
    | _ :: _ => (Ok tt, [])
    end;
  ShoppingTeam := fun _ _ search_tool _ _ =>
    if String.eqb search_tool "Tavily" then Ok 0
    else Raise (Exception "unknown search tool");
  run := sample_run;
  ProductImageProcessingAgent := fun _ _ => Ok 0;
  process_image := sample_process_image
|}.

Definition fragile_session (heard : list string) (history : list MessageModel)
    : @Session fragile_collaborators :=
  @Build_Session fragile_collaborators
    {| oid := 0; ostate := heard |}
    {| oid := 1; ostate := 0 |}
    {| oid := 2; ostate := 0 |}
    history 0.

(** A process with one session of the fragile collaborators, its history
    holding a message although the agent has heard nothing yet. *)
Definition fragile_world : @World fragile_collaborators :=
  {| agents_store :=
       {["session-0" := fragile_session [] [user_message "hello" "2025-01-01T00:00:01"]]};
     clock := 2; uuids := 1; next_oid := 3; calls := [] |}.

Definition text_upload : UploadFile :=
  {| file_filename := Some "notes.txt";
     content_type := Some "text/plain";
     file_read := Ok ["x"%byte] |}.

Definition unreadable_upload : UploadFile :=
  {| file_filename := Some "shoe.png";
     content_type := Some "image/png";
     file_read := Raise (Exception "connection lost") |}.

Definition untyped_upload : UploadFile :=
  {| file_filename := Some "shoe.png";
     content_type := None;
     file_read := Ok ["x"%byte] |}.

Definition empty_upload : UploadFile :=
  {| file_filename := Some "empty.png";
     content_type := Some "image/png";
     file_read := Ok [] |}.

(** The process after the first turn of "session-0" and a second
    configuration, which creates "session-1". *)
Definition two_sessions_world : @World sample_collaborators :=
  snd (@setup_agents sample_runtime sample_collaborators sample_config asked_world).

(** Requests that leave the history of "session-0" alone or add to it. *)
Definition mixed_requests : list Request :=
  [PostChat (text_request "session-0" "size 10, under $100");
   PostUploadImage "session-0" sample_upload;
   PostChat (text_request "session-1" "I want boots");
   PostClear "session-1";
   GetMessages "session-0";
   DeleteSession "session-1";
   PostChat (image_request "session-0" "these shoes" "data:image/png;base64,A")].

Example py_b64decode_text : py_b64decode "aGk=" = Ok ["h"%byte; "i"%byte].
Proof. reflexivity. Qed.
Example split_data_uri :
  split "," "data:image/png;base64,aGk=" = ["data:image/png;base64"; "aGk="].
Proof. reflexivity. Qed.

(** * Properties *)

Section Properties.
Context `{Runtime} `{Collaborators}.

Implicit Types (w : World) (s : Session) (sid : string).

(** ** Running the primitive steps *)

Lemma bind_run {A B} (m : M A) (k : A -> M B) w :
  bind m k w = match m w with
               | (Ok a, w') => k a w'
               | (Raise e, w') => (Raise e, w')
               end.
Proof. reflexivity. Qed.

Lemma try_except_run {A} (body : M A) (handler : exn -> M A) w :
  try_except body handler w = match body w with
                              | (Ok a, w') => (Ok a, w')
                              | (Raise e, w') => handler e w'
                              end.
Proof. reflexivity. Qed.

Lemma update_session_run w sid s :
  update_session sid s w = (Ok tt, set_store <[sid := s]> w).
Proof. reflexivity. Qed.

Lemma contains_known w sid s :
  agents_store w !! sid = Some s -> contains sid w = (Ok true, w).
Proof.
  intros Hs. unfold contains. rewrite Hs.
  rewrite bool_decide_eq_true_2; [reflexivity | eauto].
Qed.

Lemma contains_unknown w sid :
  agents_store w !! sid = None -> contains sid w = (Ok false, w).
Proof.
  intros Hs. unfold contains. rewrite Hs.
  rewrite bool_decide_eq_false_2; [reflexivity | ].
  intros [x Hx]. discriminate.
Qed.

Lemma the_session_known w sid s :
  agents_store w !! sid = Some s -> the_session sid w = (Ok s, w).
Proof. intros Hs. unfold the_session. now rewrite Hs. Qed.

Lemma store_updated sid s w :
  agents_store (set_store <[sid := s]> w) !! sid = Some s.
Proof. apply lookup_insert_eq. Qed.

Lemma append_message_run w sid s m :
  agents_store w !! sid = Some s ->
  append_message sid m w
  = (Ok tt, set_store <[sid := with_messages (messages s ++ [m]) s]> w).
Proof.
  intros Hs. unfold append_message. rewrite bind_run, (the_session_known _ _ _ Hs).
  reflexivity.
Qed.

Lemma call_process_image_run w sid s image_bytes user_input :
  agents_store w !! sid = Some s ->
  let o := image_processor s in
  let r := process_image (ostate o) image_bytes user_input in
  call_process_image sid image_bytes user_input w
  = (fst r, log_call (Call_process_image (oid o) image_bytes user_input)
              (set_store <[sid := with_image_processor (mutated o (snd r)) s]> w)).
Proof.
  intros Hs. unfold call_process_image. rewrite bind_run, (the_session_known _ _ _ Hs).
  reflexivity.
Qed.

Lemma call_process_query_run w sid s user_input :
  agents_store w !! sid = Some s ->
  let o := conversation_agent s in
  let r := process_query (ostate o) user_input in
  call_process_query sid user_input w
  = (fst r, log_call (Call_process_query (oid o) user_input)
              (set_store <[sid := with_conversation_agent (mutated o (snd r)) s]> w)).
Proof.
  intros Hs. unfold call_process_query. rewrite bind_run, (the_session_known _ _ _ Hs).
  reflexivity.
Qed.

Lemma call_reset_run w sid s :
  agents_store w !! sid = Some s ->
  let o := conversation_agent s in
  let r := reset (ostate o) in
  call_reset sid w
  = (fst r, log_call (Call_reset (oid o))
              (set_store <[sid := with_conversation_agent (mutated o (snd r)) s]> w)).
Proof.
  intros Hs. unfold call_reset. rewrite bind_run, (the_session_known _ _ _ Hs).
  reflexivity.
Qed.

Lemma call_run_run w sid s payload :
  agents_store w !! sid = Some s ->
  let o := shopping_team s in
  let r := run (ostate o) payload in
  call_run sid payload w
  = (fst r, log_call (Call_run (oid o) payload)
              (set_store <[sid := with_shopping_team (mutated o (snd r)) s]> w)).
Proof.
  intros Hs. unfold call_run. rewrite bind_run, (the_session_known _ _ _ Hs).
  reflexivity.
Qed.

Lemma world_eq w w' :
  agents_store w = agents_store w' -> clock w = clock w' -> uuids w = uuids w' ->
  next_oid w = next_oid w' -> calls w = calls w' -> w = w'.
Proof. destruct w, w'; simpl; intros; subst; reflexivity. Qed.

Lemma world_after_lookup w sid s' k evs :
  agents_store (world_after w sid s' k evs) !! sid = Some s'.
Proof. apply lookup_insert_eq. Qed.

Lemma world_after_other w sid s' k evs sid' :
  sid <> sid' ->
  agents_store (world_after w sid s' k evs) !! sid' = agents_store w !! sid'.
Proof. intros Hne. simpl. now apply lookup_insert_ne. Qed.

Lemma world_after_id w sid s :
  agents_store w !! sid = Some s -> world_after w sid s 0 [] = w.
Proof.
  intros Hs. apply world_eq; simpl.
  - now apply insert_id.
  - lia.
  - reflexivity.
  - reflexivity.
  - apply app_nil_r.
Qed.

Lemma session_after_id s :
  session_after s (ostate (conversation_agent s)) (ostate (shopping_team s))
    (ostate (image_processor s)) [] = s.
Proof.
  destruct s as [[? ?] [? ?] [? ?] ? ?]. unfold session_after, mutated. simpl.
  now rewrite app_nil_r.
Qed.

Lemma session_after_same_bundle s cst sst ist l :
  same_bundle s (session_after s cst sst ist l).
Proof. repeat split. Qed.

(** Two states of the process are equal when their components are. *)
Ltac same_world :=
  apply world_eq; simpl;
  [ rewrite ?insert_insert_eq; reflexivity
  | lia
  | reflexivity
  | reflexivity
  | rewrite <- ?app_assoc; reflexivity ].

(** ** Running the steps of a turn

    Every state a request on the session [sid] goes through has the shape
    [world_after w sid (session_after s ...) k evs], where [w] is the state
    before the request and [s] the entry of the session in it. *)

Section Steps.
Variables (w : World) (sid : string) (s : Session).
Variables (cst : ConversationState) (sst : ShoppingState) (ist : ImageState).
Variables (l : list MessageModel) (k : nat) (evs : list Event).

Lemma now_step :
  now (world_after w sid (session_after s cst sst ist l) k evs)
  = (Ok (isoformat (clock w + k)),
              world_after w sid (session_after s cst sst ist l) (k + 1) evs).
Proof.
  unfold now, datetime_now, bind, ret. simpl. f_equal. same_world.
Qed.

Lemma append_message_step m :
  append_message sid m (world_after w sid (session_after s cst sst ist l) k evs)
  = (Ok tt, world_after w sid (session_after s cst sst ist (l ++ [m])) k evs).
Proof.
  rewrite (append_message_run _ _ _ _ (world_after_lookup _ _ _ _ _)).
  f_equal. apply world_eq; simpl; try reflexivity.
  rewrite insert_insert_eq. unfold with_messages, session_after. simpl.
  now rewrite <- app_assoc.
Qed.

Lemma call_process_image_step image_bytes user_input :
  let r := process_image ist image_bytes user_input in
  call_process_image sid image_bytes user_input (world_after w sid (session_after s cst sst ist l) k evs)
  = (fst r, world_after w sid (session_after s cst sst (snd r) l) k
              (evs ++ [Call_process_image (oid (image_processor s)) image_bytes user_input])).
Proof.
  intros r.
  rewrite (call_process_image_run _ _ _ _ _ (world_after_lookup _ _ _ _ _)).
  subst r. f_equal. same_world.
Qed.

Lemma call_process_query_step user_input :
  let r := process_query cst user_input in
  call_process_query sid user_input (world_after w sid (session_after s cst sst ist l) k evs)
  = (fst r, world_after w sid (session_after s (snd r) sst ist l) k
              (evs ++ [Call_process_query (oid (conversation_agent s)) user_input])).
Proof.
  intros r.
  rewrite (call_process_query_run _ _ _ _ (world_after_lookup _ _ _ _ _)).
  subst r. f_equal. same_world.
Qed.

Lemma call_run_step payload :
  let r := run sst payload in
  call_run sid payload (world_after w sid (session_after s cst sst ist l) k evs)
  = (fst r, world_after w sid (session_after s cst (snd r) ist l) k
              (evs ++ [Call_run (oid (shopping_team s)) payload])).
Proof.
  intros r.
  rewrite (call_run_run _ _ _ _ (world_after_lookup _ _ _ _ _)).
  subst r. f_equal. same_world.
Qed.

Lemma call_b64decode_step encoded :
  call_b64decode encoded (world_after w sid (session_after s cst sst ist l) k evs)
  = (b64decode encoded,
     world_after w sid (session_after s cst sst ist l) k (evs ++ [Call_b64decode encoded])).
Proof. unfold call_b64decode. f_equal. same_world. Qed.

End Steps.

(** The state before a request, in the shape the step lemmas expect. *)
Lemma start_here w sid s :
  agents_store w !! sid = Some s ->
  w = world_after w sid
        (session_after s (ostate (conversation_agent s)) (ostate (shopping_team s))
           (ostate (image_processor s)) []) 0 [].
Proof. intros Hs. rewrite session_after_id. symmetry. now apply world_after_id. Qed.

Section Stages.
Variables (w : World) (sid : string) (s : Session).

(** Step 1, when the request carries an image. *)
Lemma image_step_run cst sst ist l k evs chat_request user_input :
  let here := world_after w sid (session_after s cst sst ist l) k evs in
  session_id chat_request = sid ->
  image_step chat_request user_input here
  = match image_data chat_request with
    | Some img =>
        if truthy img then
          match encoded_part img with
          | Raise e => (Raise e, here)
          | Ok encoded =>
              match b64decode encoded with
              | Raise e =>
                  (Raise e, world_after w sid (session_after s cst sst ist l) k
                              (evs ++ [Call_b64decode encoded]))
              | Ok image_bytes =>
                  let r := process_image ist image_bytes user_input in
                  (fst r,
                   world_after w sid (session_after s cst sst (snd r) l) k
                     (evs ++ [Call_b64decode encoded;
                              Call_process_image (oid (image_processor s))
                                image_bytes user_input]))
              end
          end
        else (Ok user_input, here)
    | None => (Ok user_input, here)
    end.
Proof.
  intros here Hsid. unfold image_step. rewrite Hsid.
  destruct (image_data chat_request) as [img|]; [|reflexivity].
  destruct (truthy img); [|reflexivity].
  rewrite bind_run. unfold lift.
  destruct (encoded_part img) as [encoded|e]; [|reflexivity].
  rewrite bind_run. unfold here. rewrite call_b64decode_step.
  destruct (b64decode encoded) as [image_bytes|e]; [|reflexivity].
  rewrite bind_run, call_process_image_step.
  destruct (process_image ist image_bytes user_input) as [[text|e] ist']; simpl.
  - unfold ret. f_equal. same_world.
  - f_equal. same_world.
Qed.

(** Step 3. *)
Lemma respond_run cst sst ist l k evs
    (conversation_response : ConversationResponse Payload) :
  let here := world_after w sid (session_after s cst sst ist l) k evs in
  let reply := assistant_message (conv_message conversation_response)
                 (isoformat (clock w + k)) in
  respond sid conversation_response here
  = if have_further_conversation conversation_response then
      (Ok {| type := "conversation";
             resp_message := conv_message conversation_response;
             products_html := None;
             continue_conversation := true;
             resp_timestamp := isoformat (clock w + (k + 1)) |},
       world_after w sid (session_after s cst sst ist (l ++ [reply])) (k + 2) evs)
    else
      match data conversation_response with
      | None =>
          (Raise (Exception "'data'"),
           world_after w sid (session_after s cst sst ist (l ++ [reply])) (k + 1) evs)
      | Some payload =>
          let r := run sst payload in
          let evs' := evs ++ [Call_run (oid (shopping_team s)) payload] in
          match fst r with
          | Raise e =>
              (Raise e,
               world_after w sid (session_after s cst (snd r) ist (l ++ [reply]))
                 (k + 1) evs')
          | Ok html =>
              (Ok {| type := "product_search";
                     resp_message := conv_message conversation_response;
                     products_html := Some html;
                     continue_conversation := false;
                     resp_timestamp := isoformat (clock w + (k + 2)) |},
               world_after w sid
                 (session_after s cst (snd r) ist
                    (l ++ [reply; product_message html (isoformat (clock w + (k + 1)))]))
                 (k + 3) evs')
          end
      end.
Proof.
  intros here reply. unfold respond, here.
  destruct (have_further_conversation conversation_response).
  - rewrite bind_run, now_step, bind_run, append_message_step, bind_run, now_step.
    unfold ret. replace (k + 1 + 1) with (k + 2) by lia. reflexivity.
  - rewrite bind_run, now_step, bind_run, append_message_step, bind_run.
    unfold lift, response_data.
    destruct (data conversation_response) as [payload|]; [|reflexivity].
    rewrite bind_run, call_run_step.
    destruct (run sst payload) as [[html|e] sst']; simpl; [|reflexivity].
    rewrite bind_run, now_step, bind_run, append_message_step, bind_run, now_step.
    unfold ret. rewrite <- app_assoc.
    replace (k + 1 + 1 + 1) with (k + 3) by lia.
    replace (k + 1 + 1) with (k + 2) by lia. reflexivity.
Qed.

(** The user message, step 2 and step 3. *)
Lemma conversation_step_run cst sst ist l k evs user_input :
  let here := world_after w sid (session_after s cst sst ist l) k evs in
  let r := process_query cst user_input in
  let next :=
    world_after w sid
      (session_after s (snd r) sst ist
         (l ++ [user_message user_input (isoformat (clock w + k))]))
      (k + 1) (evs ++ [Call_process_query (oid (conversation_agent s)) user_input]) in
  conversation_step sid user_input here
  = match fst r with
    | Raise e => (Raise e, next)
    | Ok conversation_response => respond sid conversation_response next
    end.
Proof.
  intros here r next. unfold conversation_step, here.
  rewrite bind_run, now_step, bind_run, append_message_step, bind_run,
    call_process_query_step.
  fold r. destruct (fst r); reflexivity.
Qed.

End Stages.

(** Step 1 touches the image processor only, and calls nothing but the
    decoder and the image processor. *)
Lemma image_step_frame w s chat_request user_input r w1 :
  agents_store w !! session_id chat_request = Some s ->
  image_step chat_request user_input w = (r, w1) ->
  exists ist evs,
    w1 = world_after w (session_id chat_request)
           (session_after s (ostate (conversation_agent s)) (ostate (shopping_team s))
              ist []) 0 evs /\
    Forall (fun ev => is_image_call ev = true) evs.
Proof.
  intros Hs Hstep.
  rewrite (start_here _ _ _ Hs) in Hstep at 1.
  rewrite image_step_run in Hstep by reflexivity.
  pose proof (start_here _ _ _ Hs) as Hw.
  destruct (image_data chat_request) as [img|].
  - destruct (truthy img).
    + destruct (encoded_part img) as [encoded|e].
      * destruct (b64decode encoded) as [image_bytes|e].
        -- injection Hstep as _ <-. do 2 eexists. split; [reflexivity|].
           repeat constructor.
        -- injection Hstep as _ <-. do 2 eexists. split; [reflexivity|].
           repeat constructor.
      * injection Hstep as _ <-. do 2 eexists. split; [reflexivity|]. constructor.
    + injection Hstep as _ <-. do 2 eexists. split; [reflexivity|]. constructor.
  - injection Hstep as _ <-. do 2 eexists. split; [reflexivity|]. constructor.
Qed.

Lemma process_chat_known w chat_request s :
  agents_store w !! session_id chat_request = Some s ->
  process_chat chat_request w
  = match chat_turn chat_request w with
    | (Ok a, w') => (Ok a, w')
    | (Raise e, w') => (Raise (HTTPException 500 ("Processing error: " ++ str e)), w')
    end.
Proof.
  intros Hs. unfold process_chat. rewrite bind_run, (contains_known _ _ _ Hs).
  reflexivity.
Qed.

Lemma process_chat_unknown w chat_request :
  agents_store w !! session_id chat_request = None ->
  process_chat chat_request w
  = (Raise (HTTPException 404 "Session not found. Please configure agents first."), w).
Proof.
  intros Hs. unfold process_chat. rewrite bind_run, (contains_unknown _ _ Hs).
  reflexivity.
Qed.

Lemma chat_turn_run w chat_request :
  chat_turn chat_request w
  = match image_step chat_request (message chat_request) w with
    | (Ok user_input, w1) => conversation_step (session_id chat_request) user_input w1
    | (Raise e, w1) => (Raise e, w1)
    end.
Proof. reflexivity. Qed.

Lemma mutated_same {St} (o : object St) : mutated o (ostate o) = o.
Proof. now destruct o. Qed.


Lemma image_calls_not_run evs :
  Forall (fun ev => is_image_call ev = true) evs ->
  Forall (fun ev => is_run ev = false) evs.
Proof.
  induction 1 as [|ev evs Hev _ IH]; constructor; [|exact IH].
  now destruct ev.
Qed.

(** ** The two branches of a turn *)

(** C1.  A turn on a known session in which the conversation agent asks to
    go on ([have_further_conversation] is true) answers with a
    ["conversation"] response that continues the conversation and carries
    no [products_html]; it never calls [run] on the shopping team, whose
    object is left as it was; the history gains the user message and the
    assistant reply, nothing else. *)
Theorem continue_turn_skips_search w chat_request s user_input w1
    (conversation_response : ConversationResponse Payload) cst :
  agents_store w !! session_id chat_request = Some s ->
  image_step chat_request (message chat_request) w = (Ok user_input, w1) ->
  process_query (ostate (conversation_agent s)) user_input
    = (Ok conversation_response, cst) ->
  have_further_conversation conversation_response = true ->
  exists w' s',
    process_chat chat_request w
      = (Ok {| type := "conversation";
               resp_message := conv_message conversation_response;
               products_html := None;
               continue_conversation := true;
               resp_timestamp := isoformat (clock w + 2) |}, w') /\
    agents_store w' !! session_id chat_request = Some s' /\
    messages s'
      = messages s ++
        [user_message user_input (isoformat (clock w));
         assistant_message (conv_message conversation_response)
           (isoformat (clock w + 1))] /\
    shopping_team s' = shopping_team s /\
    calls w' = calls w1 ++ [Call_process_query (oid (conversation_agent s)) user_input] /\
    exists evs, calls w' = calls w ++ evs /\ Forall (fun ev => is_run ev = false) evs.
Proof.
  intros Hs Himg Hquery Hmore.
  destruct (image_step_frame _ _ _ _ _ _ Hs Himg) as (ist & evs & -> & Hevs).
  rewrite (process_chat_known _ _ _ Hs), chat_turn_run, Himg.
  rewrite conversation_step_run, Hquery. simpl fst. simpl snd. cbv iota.
  rewrite respond_run, Hmore.
  do 2 eexists. split; [|split; [apply world_after_lookup|]].
  - reflexivity.
  - simpl. rewrite Nat.add_0_r. repeat split.
    + apply mutated_same.
    + now rewrite <- app_assoc.
    + exists (evs ++ [Call_process_query (oid (conversation_agent s)) user_input]).
      split; [reflexivity|].
      apply Forall_app. split; [now apply image_calls_not_run|].
      repeat constructor.
Qed.

(** C2.  A turn on a known session in which the conversation agent ends
    the conversation ([have_further_conversation] is false) and the
    shopping team, called with the agent's ["data"], renders [html]:
    after the user message and the assistant reply the history gains
    exactly one more message, an assistant message tagged
    ["product_results"] whose content is [html]; the response is a
    ["product_search"] response whose [products_html] is [html]. *)
Theorem search_turn_appends_product_results w chat_request s user_input w1
    (conversation_response : ConversationResponse Payload) cst payload html sst :
  agents_store w !! session_id chat_request = Some s ->
  image_step chat_request (message chat_request) w = (Ok user_input, w1) ->
  process_query (ostate (conversation_agent s)) user_input
    = (Ok conversation_response, cst) ->
  have_further_conversation conversation_response = false ->
  data conversation_response = Some payload ->
  run (ostate (shopping_team s)) payload = (Ok html, sst) ->
  exists w' s' appended,
    process_chat chat_request w
      = (Ok {| type := "product_search";
               resp_message := conv_message conversation_response;
               products_html := Some html;
               continue_conversation := false;
               resp_timestamp := isoformat (clock w + 3) |}, w') /\
    agents_store w' !! session_id chat_request = Some s' /\
    messages s' = messages s ++ appended /\
    appended
      = [user_message user_input (isoformat (clock w));
         assistant_message (conv_message conversation_response)
           (isoformat (clock w + 1));
         product_message html (isoformat (clock w + 2))] /\
    List.filter is_product_results appended
      = [product_message html (isoformat (clock w + 2))] /\
    calls w'
      = calls w1 ++ [Call_process_query (oid (conversation_agent s)) user_input;
                     Call_run (oid (shopping_team s)) payload].
Proof.
  intros Hs Himg Hquery Hdone Hdata Hrun.
  destruct (image_step_frame _ _ _ _ _ _ Hs Himg) as (ist & evs & -> & Hevs).
  rewrite (process_chat_known _ _ _ Hs), chat_turn_run, Himg.
  rewrite conversation_step_run, Hquery. simpl fst. simpl snd. cbv iota.
  rewrite respond_run, Hdone, Hdata. cbv zeta. rewrite Hrun. simpl fst. simpl snd.
  cbv iota.
  do 3 eexists. split; [reflexivity|]. split; [apply world_after_lookup|].
  simpl. rewrite Nat.add_0_r.
  repeat split; rewrite <- ?app_assoc; reflexivity.
Qed.

(** ** Failed turns *)

(** C3.  A turn on a known session that fails in one of its stages ends
    with the 500 response carrying the error, and the entry of the session
    is still there, the same bundle, with a history that depends on the
    stage that failed: unchanged when step 1 (image decoding or
    interpretation) fails; the old history and the user message when the
    conversation agent fails; the old history, the user message and the
    assistant reply when the search (the lookup of ["data"] or the call of
    the shopping team) fails. *)
Theorem failed_turn_keeps_earlier_messages w chat_request s :
  agents_store w !! session_id chat_request = Some s ->
  (forall e w1,
     image_step chat_request (message chat_request) w = (Raise e, w1) ->
     exists w' s',
       process_chat chat_request w
         = (Raise (HTTPException 500 ("Processing error: " ++ str e)), w') /\
       agents_store w' !! session_id chat_request = Some s' /\
       same_bundle s s' /\
       messages s' = messages s) /\
  (forall user_input w1 e cst,
     image_step chat_request (message chat_request) w = (Ok user_input, w1) ->
     process_query (ostate (conversation_agent s)) user_input = (Raise e, cst) ->
     exists w' s',
       process_chat chat_request w
         = (Raise (HTTPException 500 ("Processing error: " ++ str e)), w') /\
       agents_store w' !! session_id chat_request = Some s' /\
       same_bundle s s' /\
       messages s' = messages s ++ [user_message user_input (isoformat (clock w))]) /\
  (forall user_input w1 (conversation_response : ConversationResponse Payload) cst e,
     image_step chat_request (message chat_request) w = (Ok user_input, w1) ->
     process_query (ostate (conversation_agent s)) user_input
       = (Ok conversation_response, cst) ->
     have_further_conversation conversation_response = false ->
     (response_data conversation_response = Raise e \/
      exists payload sst,
        data conversation_response = Some payload /\
        run (ostate (shopping_team s)) payload = (Raise e, sst)) ->
     exists w' s',
       process_chat chat_request w
         = (Raise (HTTPException 500 ("Processing error: " ++ str e)), w') /\
       agents_store w' !! session_id chat_request = Some s' /\
       same_bundle s s' /\
       messages s'
         = messages s ++
           [user_message user_input (isoformat (clock w));
            assistant_message (conv_message conversation_response)
              (isoformat (clock w + 1))]).
Proof.
  intros Hs. split; [|split].
  - intros e w1 Himg.
    destruct (image_step_frame _ _ _ _ _ _ Hs Himg) as (ist & evs & -> & Hevs).
    rewrite (process_chat_known _ _ _ Hs), chat_turn_run, Himg.
    do 2 eexists. split; [reflexivity|]. split; [apply world_after_lookup|].
    split; [apply session_after_same_bundle|]. simpl. apply app_nil_r.
  - intros user_input w1 e cst Himg Hquery.
    destruct (image_step_frame _ _ _ _ _ _ Hs Himg) as (ist & evs & -> & Hevs).
    rewrite (process_chat_known _ _ _ Hs), chat_turn_run, Himg.
    rewrite conversation_step_run, Hquery. simpl fst. simpl snd. cbv iota.
    do 2 eexists. split; [reflexivity|]. split; [apply world_after_lookup|].
    split; [apply session_after_same_bundle|]. simpl. now rewrite Nat.add_0_r.
  - intros user_input w1 conversation_response cst e Himg Hquery Hdone Hfail.
    destruct (image_step_frame _ _ _ _ _ _ Hs Himg) as (ist & evs & -> & Hevs).
    rewrite (process_chat_known _ _ _ Hs), chat_turn_run, Himg.
    rewrite conversation_step_run, Hquery. simpl fst. simpl snd. cbv iota.
    rewrite respond_run, Hdone.
    destruct Hfail as [Hdata | (payload & sst & Hdata & Hrun)].
    + unfold response_data in Hdata.
      destruct (data conversation_response) as [payload|]; [discriminate|].
      injection Hdata as <-.
      do 2 eexists. split; [reflexivity|]. split; [apply world_after_lookup|].
      split; [apply session_after_same_bundle|]. simpl.
      rewrite Nat.add_0_r. reflexivity.
    + rewrite Hdata. cbv zeta. rewrite Hrun. simpl fst. simpl snd. cbv iota.
      do 2 eexists. split; [reflexivity|]. split; [apply world_after_lookup|].
      split; [apply session_after_same_bundle|]. simpl.
      rewrite Nat.add_0_r. reflexivity.
Qed.

(** What the rest of the turn does to the state of the process after
    step 1: the conversation step only adds to the calls made, and neither
    its response nor the store it leaves depends on the calls made before. *)
Lemma conversation_step_calls w sid s cst sst ist l k evs user_input :
  exists s' k' more,
    snd (conversation_step sid user_input
           (world_after w sid (session_after s cst sst ist l) k evs))
    = world_after w sid s' k'
        (evs ++ Call_process_query (oid (conversation_agent s)) user_input :: more).
Proof.
  rewrite conversation_step_run.
  destruct (process_query cst user_input) as [[conversation_response|e] cst'];
    simpl fst; simpl snd; cbv iota.
  - rewrite respond_run.
    destruct (have_further_conversation conversation_response).
    + do 3 eexists. simpl snd. rewrite <- ?app_assoc. reflexivity.
    + destruct (data conversation_response) as [payload|].
      * cbv zeta. destruct (run sst payload) as [[html|e] sst']; simpl fst; cbv iota;
          do 3 eexists; simpl snd; rewrite <- ?app_assoc; reflexivity.
      * do 3 eexists. simpl snd. rewrite <- ?app_assoc. reflexivity.
  - do 3 eexists. simpl snd. rewrite <- ?app_assoc. reflexivity.
Qed.

Lemma conversation_step_ignores_calls w sid s cst sst ist l k evs1 evs2 user_input :
  let turn evs :=
    conversation_step sid user_input
      (world_after w sid (session_after s cst sst ist l) k evs) in
  fst (turn evs1) = fst (turn evs2) /\
  agents_store (snd (turn evs1)) = agents_store (snd (turn evs2)).
Proof.
  intros turn. unfold turn. rewrite !conversation_step_run.
  destruct (process_query cst user_input) as [[conversation_response|e] cst'];
    simpl fst; simpl snd; cbv iota; [|split; reflexivity].
  rewrite !respond_run.
  destruct (have_further_conversation conversation_response); [split; reflexivity|].
  destruct (data conversation_response) as [payload|]; [|split; reflexivity].
  cbv zeta. destruct (run sst payload) as [[html|e] sst']; split; reflexivity.
Qed.

(** ** The image payload *)

Lemma split_cons sep str :
  exists segs, split sep str = (if Ascii.eqb sep "," then before_first_comma str
                                else hd EmptyString (split sep str)) :: segs.
Proof.
  destruct (Ascii.eqb_spec sep ",") as [->|Hsep].
  - induction str as [|c rest [segs IH]]; simpl.
    + eexists. reflexivity.
    + destruct (Ascii.eqb c ","); [eexists; reflexivity|].
      rewrite IH. eexists. reflexivity.
  - destruct (split sep str) as [|seg segs] eqn:E.
    + destruct str as [|c rest]; simpl in E; [discriminate|].
      destruct (Ascii.eqb c sep); [discriminate|].
      destruct (split sep rest); discriminate.
    + eexists. reflexivity.
Qed.

Lemma split_comma_head str :
  exists segs, split "," str = before_first_comma str :: segs.
Proof. exact (split_cons "," str). Qed.

(** Element 1 of the split is the text between the first comma and the
    second, or the end of the string. *)
Lemma encoded_part_remainder img rem :
  remainder_after_first_comma img = Some rem ->
  encoded_part img = Ok (before_first_comma rem).
Proof.
  unfold encoded_part, index.
  induction img as [|c rest IH]; simpl; [discriminate|].
  destruct (Ascii.eqb c ",").
  - intros [= ->]. destruct (split_comma_head rem) as [segs ->]. reflexivity.
  - intros Hrem. specialize (IH Hrem).
    destruct (split_comma_head rest) as [segs Hsplit]. rewrite Hsplit in IH |- *.
    exact IH.
Qed.

Lemma encoded_part_no_comma img :
  remainder_after_first_comma img = None ->
  encoded_part img = Raise (Exception "list index out of range").
Proof.
  unfold encoded_part, index.
  induction img as [|c rest IH]; simpl; [reflexivity|].
  destruct (Ascii.eqb c ","); [discriminate|].
  intros Hrem. specialize (IH Hrem).
  destruct (split_comma_head rest) as [segs Hsplit]. rewrite Hsplit in IH |- *.
  destruct segs; [reflexivity | discriminate].
Qed.

Lemma before_first_comma_all str :
  has_comma str = false -> before_first_comma str = str.
Proof.
  induction str as [|c rest IH]; simpl; [reflexivity|].
  destruct (Ascii.eqb c ","); [discriminate|].
  simpl. intros Hrest. now rewrite IH.
Qed.

Lemma remainder_truthy img rem :
  remainder_after_first_comma img = Some rem -> truthy img = true.
Proof. now destruct img. Qed.

(** Step 1 at the start of a turn on a known session. *)
Lemma image_step_known w chat_request s user_input :
  agents_store w !! session_id chat_request = Some s ->
  let sid := session_id chat_request in
  image_step chat_request user_input w
  = match image_data chat_request with
    | Some img =>
        if truthy img then
          match encoded_part img with
          | Raise e => (Raise e, w)
          | Ok encoded =>
              match b64decode encoded with
              | Raise e => (Raise e, world_after w sid s 0 [Call_b64decode encoded])
              | Ok image_bytes =>
                  let r := process_image (ostate (image_processor s)) image_bytes
                             user_input in
                  (fst r,
                   world_after w sid
                     (session_after s (ostate (conversation_agent s))
                        (ostate (shopping_team s)) (snd r) []) 0
                     [Call_b64decode encoded;
                      Call_process_image (oid (image_processor s)) image_bytes
                        user_input])
              end
          end
        else (Ok user_input, w)
    | None => (Ok user_input, w)
    end.
Proof.
  intros Hs sid. subst sid.
  pose proof (image_step_run w (session_id chat_request) s (ostate (conversation_agent s))
                (ostate (shopping_team s)) (ostate (image_processor s)) [] 0 []
                chat_request user_input eq_refl) as Hrun.
  cbv zeta in Hrun. rewrite session_after_id in Hrun.
  rewrite (world_after_id _ _ _ Hs) in Hrun. exact Hrun.
Qed.


(** C5.  A turn on a known session whose request carries an image that
    decodes to [image_bytes] and that the image processor describes as
    [described]: the image processor is called with the decoded bytes and
    the text of the request; the user message appended to the history has
    exactly [described] as its content, and the conversation agent is
    called with exactly [described].  The text of the request reaches
    nothing but the image processor: a request with another text for
    which the image processor answers the same gets the same response and
    leaves the same store. *)
Theorem image_text_replaces_message w chat_request s img encoded image_bytes described ist :
  agents_store w !! session_id chat_request = Some s ->
  image_data chat_request = Some img ->
  truthy img = true ->
  encoded_part img = Ok encoded ->
  b64decode encoded = Ok image_bytes ->
  process_image (ostate (image_processor s)) image_bytes (message chat_request)
    = (Ok described, ist) ->
  (exists s' later more,
     agents_store (snd (process_chat chat_request w)) !! session_id chat_request
       = Some s' /\
     messages s'
       = messages s ++ user_message described (isoformat (clock w)) :: later /\
     calls (snd (process_chat chat_request w))
       = calls w ++
         Call_b64decode encoded ::
         Call_process_image (oid (image_processor s)) image_bytes (message chat_request) ::
         Call_process_query (oid (conversation_agent s)) described :: more) /\
  (forall other_text,
     process_image (ostate (image_processor s)) image_bytes other_text
       = (Ok described, ist) ->
     let other := {| session_id := session_id chat_request;
                     message := other_text;
                     image_data := image_data chat_request |} in
     fst (process_chat other w) = fst (process_chat chat_request w) /\
     agents_store (snd (process_chat other w))
       = agents_store (snd (process_chat chat_request w))).
Proof.
  intros Hs Himg Htruthy Henc Hdec Hproc. split.
  - rewrite (process_chat_known _ _ _ Hs), chat_turn_run, (image_step_known _ _ _ _ Hs).
    cbv zeta. rewrite Himg, Htruthy, Henc, Hdec, Hproc. simpl fst. simpl snd.
    rewrite conversation_step_run.
    destruct (process_query (ostate (conversation_agent s)) described)
      as [[conversation_response|e] cst']; simpl fst; simpl snd; cbv iota.
    + rewrite respond_run.
      destruct (have_further_conversation conversation_response).
      * do 3 eexists. simpl snd. split; [apply world_after_lookup|].
        simpl. rewrite Nat.add_0_r. split; reflexivity.
      * destruct (data conversation_response) as [payload|].
        -- cbv zeta.
           destruct (run (ostate (shopping_team s)) payload) as [[html|e] sst'];
             simpl fst; cbv iota; do 3 eexists; simpl snd;
             (split; [apply world_after_lookup|]);
             simpl; rewrite Nat.add_0_r; split; reflexivity.
        -- do 3 eexists. simpl snd. split; [apply world_after_lookup|].
           simpl. rewrite Nat.add_0_r. split; reflexivity.
    + do 3 eexists. simpl snd. split; [apply world_after_lookup|].
      simpl. rewrite Nat.add_0_r. split; reflexivity.
  - intros other_text Hother other.
    assert (Hs' : agents_store w !! session_id other = Some s) by exact Hs.
    rewrite (process_chat_known _ _ _ Hs), (process_chat_known _ _ _ Hs').
    rewrite !chat_turn_run.
    rewrite (image_step_known _ _ _ _ Hs), (image_step_known _ _ _ _ Hs').
    cbv zeta. subst other. simpl image_data. simpl message. simpl session_id.
    rewrite Himg, Htruthy, Henc, Hdec, Hproc, Hother. simpl fst. simpl snd.
    match goal with
    | |- context [conversation_step ?sid ?u (world_after ?w ?sid ?s0 ?k ?e1)] =>
        match goal with
        | |- context [conversation_step sid u (world_after w sid s0 k ?e2)] =>
            lazymatch e1 with
            | e2 => fail
            | _ =>
                destruct (conversation_step_ignores_calls w sid s
                            (ostate (conversation_agent s)) (ostate (shopping_team s))
                            ist [] k e1 e2 u) as [Hfst Hstore]
            end
        end
    end.
    cbv zeta in Hfst, Hstore.
    destruct (conversation_step _ _ (world_after _ _ _ _
                [_; Call_process_image _ _ other_text])) as [r1 w1].
    destruct (conversation_step _ _ _) as [r2 w2].
    simpl in Hfst, Hstore. subst r2.
    destruct r1; simpl; split; congruence.
Qed.

Lemma before_first_comma_has_none str :
  has_comma (before_first_comma str) = false.
Proof.
  induction str as [|c rest IH]; simpl; [reflexivity|].
  destruct (Ascii.eqb c ",") eqn:E; [reflexivity|].
  simpl. now rewrite E.
Qed.

(** C6 (amended).  For a request on a known session whose image payload
    contains a comma, the string handed to [b64decode] is the text between
    the first comma and the next one (or the end of the payload).  It is
    the whole remainder after the first comma exactly when that remainder
    contains no further comma. *)
Theorem chat_decodes_text_up_to_second_comma w chat_request s img remainder :
  agents_store w !! session_id chat_request = Some s ->
  image_data chat_request = Some img ->
  remainder_after_first_comma img = Some remainder ->
  (exists more,
     calls (snd (process_chat chat_request w))
       = calls w ++ Call_b64decode (before_first_comma remainder) :: more) /\
  (has_comma remainder = false <-> before_first_comma remainder = remainder).
Proof.
  intros Hs Himg Hrem. split.
  - rewrite (process_chat_known _ _ _ Hs), chat_turn_run, (image_step_known _ _ _ _ Hs).
    cbv zeta.
    rewrite Himg, (remainder_truthy _ _ Hrem), (encoded_part_remainder _ _ Hrem).
    destruct (b64decode (before_first_comma remainder)) as [image_bytes|e].
    + destruct (process_image _ image_bytes _) as [[described|e] ist]; simpl fst; simpl snd.
      * match goal with
        | |- context [conversation_step ?sid ?u (world_after ?w ?sid (session_after ?s0 ?c ?t ?i ?l) ?k ?evs)] =>
            destruct (conversation_step_calls w sid s0 c t i l k evs u)
              as (s' & k' & more & Hcalls)
        end.
        destruct (conversation_step _ _ _) as [[r|e] w2]; simpl in Hcalls; subst w2;
          eexists; reflexivity.
      * eexists. reflexivity.
    + eexists. reflexivity.
  - split; [apply before_first_comma_all|].
    intros <-. apply before_first_comma_has_none.
Qed.

(** ** The registry *)

Lemma get_messages_known w sid s :
  agents_store w !! sid = Some s -> get_messages sid w = (Ok (messages s), w).
Proof.
  intros Hs. unfold get_messages.
  rewrite bind_run, (contains_known _ _ _ Hs), bind_run, (the_session_known _ _ _ Hs).
  reflexivity.
Qed.

Lemma get_messages_unknown w sid :
  agents_store w !! sid = None -> get_messages sid w = (Ok [], w).
Proof.
  intros Hs. unfold get_messages. rewrite bind_run, (contains_unknown _ _ Hs).
  reflexivity.
Qed.

Lemma get_messages_pure w sid : snd (get_messages sid w) = w.
Proof.
  destruct (agents_store w !! sid) as [s|] eqn:Hs.
  - now rewrite (get_messages_known _ _ _ Hs).
  - now rewrite (get_messages_unknown _ _ Hs).
Qed.

(** C9.  [GET /api/messages/{id}] always answers, and leaves the process
    as it was: with the history of the session, in order, when the id is
    known, and with the empty list when it is not. *)
Theorem get_messages_never_fails w sid :
  get_messages sid w
  = (Ok match agents_store w !! sid with
        | Some s => messages s
        | None => []
        end, w).
Proof.
  destruct (agents_store w !! sid) as [s|] eqn:Hs.
  - now apply get_messages_known.
  - now apply get_messages_unknown.
Qed.

Lemma clear_conversation_known w sid s :
  agents_store w !! sid = Some s ->
  let r := reset (ostate (conversation_agent s)) in
  clear_conversation sid w
  = (match fst r with
     | Ok _ => Ok {| success := true; status_message := "Conversation cleared" |}
     | Raise e => Raise (HTTPException 500 ("Failed to clear conversation: " ++ str e))
     end,
     world_after w sid
       {| conversation_agent := mutated (conversation_agent s) (snd r);
          shopping_team := shopping_team s;
          image_processor := image_processor s;
          messages := [];
          created_at := created_at s |}
       0 [Call_reset (oid (conversation_agent s))]).
Proof.
  intros Hs r. unfold clear_conversation.
  rewrite bind_run, (contains_known _ _ _ Hs). cbn [negb].
  rewrite try_except_run, bind_run, (the_session_known _ _ _ Hs), bind_run.
  rewrite update_session_run, bind_run, (call_reset_run _ _ _ (store_updated _ _ _)).
  cbv zeta. simpl conversation_agent. simpl ostate. fold r.
  destruct (fst r) as [[]|e]; unfold ret, raise; f_equal; same_world.
Qed.

(** C7.  Clearing a known session: the request leaves the entry of the
    session in the store, with an empty history (so that the messages read
    next are the empty list); the three collaborators are the objects they
    were, none was constructed; the shopping team and the image processor
    are untouched and the conversation agent is in the state its [reset]
    method left it in, which under the contract of [reset] is an initial
    dialogue state, the request then answering with success. *)
Theorem clear_keeps_session_and_collaborators w sid s :
  agents_store w !! sid = Some s ->
  exists r w' s',
    clear_conversation sid w = (r, w') /\
    agents_store w' !! sid = Some s' /\
    get_messages sid w' = (Ok [], w') /\
    same_bundle s s' /\
    next_oid w' = next_oid w /\
    shopping_team s' = shopping_team s /\
    image_processor s' = image_processor s /\
    ostate (conversation_agent s') = snd (reset (ostate (conversation_agent s))) /\
    calls w' = calls w ++ [Call_reset (oid (conversation_agent s))] /\
    (forall initial,
       reset_returns_to_initial initial ->
       r = Ok {| success := true; status_message := "Conversation cleared" |} /\
       initial (ostate (conversation_agent s'))).
Proof.
  intros Hs. rewrite (clear_conversation_known _ _ _ Hs). cbv zeta.
  do 3 eexists. split; [reflexivity|]. split; [apply world_after_lookup|].
  split; [erewrite get_messages_known by apply world_after_lookup; reflexivity|].
  split; [repeat split|].
  do 5 (split; [reflexivity|]).
  intros initial Hreset.
  destruct (Hreset (ostate (conversation_agent s))) as [Hok Hinit].
  simpl. rewrite Hok. split; [reflexivity | exact Hinit].
Qed.

Lemma upload_image_known w sid s file :
  agents_store w !! sid = Some s ->
  upload_image sid file w
  = match content_type file with
    | None => (Raise (Exception "'NoneType' object has no attribute 'startswith'"), w)
    | Some declared =>
        if negb (String.prefix "image/" declared)
        then (Raise (HTTPException 400 "File must be an image"), w)
        else
          match file_read file with
          | Raise e => (Raise (HTTPException 500 ("Image processing error: " ++ str e)), w)
          | Ok file_content =>
              let o := image_processor s in
              let r := process_image (ostate o) file_content "" in
              (match fst r with
               | Ok text => Ok {| up_success := true; extracted_text := text;
                                  filename := file_filename file |}
               | Raise e => Raise (HTTPException 500 ("Image processing error: " ++ str e))
               end,
               world_after w sid (with_image_processor (mutated o (snd r)) s) 0
                 [Call_process_image (oid o) file_content ""])
          end
    end.
Proof.
  intros Hs. unfold upload_image.
  rewrite bind_run, (contains_known _ _ _ Hs). cbn [negb].
  destruct (content_type file) as [declared|]; [|reflexivity].
  rewrite bind_run. unfold ret at 1.
  destruct (negb (String.prefix "image/" declared)); [reflexivity|].
  rewrite try_except_run, bind_run. unfold lift.
  destruct (file_read file) as [file_content|e]; [|reflexivity].
  rewrite bind_run, (call_process_image_run _ _ _ _ _ Hs). cbv zeta.
  destruct (process_image _ file_content "") as [[text|e] ist]; simpl fst; simpl snd;
    unfold ret, raise; f_equal; same_world.
Qed.

(** C10.  Uploading a file to a known session, whatever the file and
    whatever the outcome: the entry of the session keeps its history, its
    conversation agent, its shopping team and its creation time, and the
    image processor stays the same object; the messages read after the
    upload are the messages read before it.  When the file is declared as
    an image, can be read, and the image processor describes it, the
    response carries the description and the file name, and the only call
    made is that of the image processor, on the content of the file and
    the empty text. *)
Theorem upload_image_leaves_history w sid s file :
  agents_store w !! sid = Some s ->
  (exists s',
     agents_store (snd (upload_image sid file w)) = <[sid := s']> (agents_store w) /\
     messages s' = messages s /\
     conversation_agent s' = conversation_agent s /\
     shopping_team s' = shopping_team s /\
     created_at s' = created_at s /\
     oid (image_processor s') = oid (image_processor s)) /\
  fst (get_messages sid (snd (upload_image sid file w))) = fst (get_messages sid w) /\
  (forall declared file_content text ist,
     content_type file = Some declared ->
     String.prefix "image/" declared = true ->
     file_read file = Ok file_content ->
     process_image (ostate (image_processor s)) file_content "" = (Ok text, ist) ->
     fst (upload_image sid file w)
       = Ok {| up_success := true; extracted_text := text;
               filename := file_filename file |} /\
     calls (snd (upload_image sid file w))
       = calls w ++ [Call_process_image (oid (image_processor s)) file_content ""]).
Proof.
  intros Hs.
  assert (Hsame : agents_store w = <[sid := s]> (agents_store w))
    by (symmetry; now apply insert_id).
  assert (Hentry : exists s',
     agents_store (snd (upload_image sid file w)) = <[sid := s']> (agents_store w) /\
     messages s' = messages s /\
     conversation_agent s' = conversation_agent s /\
     shopping_team s' = shopping_team s /\
     created_at s' = created_at s /\
     oid (image_processor s') = oid (image_processor s)).
  { rewrite (upload_image_known _ _ _ _ Hs).
    destruct (content_type file) as [declared|]; [|exists s; repeat split; exact Hsame].
    destruct (negb (String.prefix "image/" declared)); [exists s; repeat split; exact Hsame|].
    destruct (file_read file) as [file_content|e]; [|exists s; repeat split; exact Hsame].
    cbv zeta. eexists. split; [reflexivity|]. repeat split. }
  split; [exact Hentry|]. split.
  - destruct Hentry as (s' & Hstore & Hmessages & _).
    rewrite (get_messages_known w sid s Hs).
    rewrite (get_messages_known _ sid s').
    + simpl. now rewrite Hmessages.
    + rewrite Hstore. apply lookup_insert_eq.
  - intros declared file_content text ist Hct Himage Hread Hproc.
    rewrite (upload_image_known _ _ _ _ Hs), Hct, Himage, Hread. cbn [negb]. cbv zeta.
    rewrite Hproc. split; reflexivity.
Qed.

(** *** Sessions that are not in the store stay out of it *)

Lemma delete_session_known w sid s :
  agents_store w !! sid = Some s ->
  delete_session sid w
  = (Ok {| success := true; status_message := "Session deleted" |},
     set_store (delete sid) w).
Proof.
  intros Hs. unfold delete_session. rewrite bind_run, (contains_known _ _ _ Hs).
  reflexivity.
Qed.

Lemma delete_session_unknown w sid :
  agents_store w !! sid = None ->
  delete_session sid w = (Raise (HTTPException 404 "Session not found"), w).
Proof.
  intros Hs. unfold delete_session. rewrite bind_run, (contains_unknown _ _ Hs).
  reflexivity.
Qed.

Lemma clear_conversation_unknown w sid :
  agents_store w !! sid = None ->
  clear_conversation sid w = (Raise (HTTPException 404 "Session not found"), w).
Proof.
  intros Hs. unfold clear_conversation. rewrite bind_run, (contains_unknown _ _ Hs).
  reflexivity.
Qed.

Lemma upload_image_unknown w sid file :
  agents_store w !! sid = None ->
  upload_image sid file w = (Raise (HTTPException 404 "Session not found"), w).
Proof.
  intros Hs. unfold upload_image. rewrite bind_run, (contains_unknown _ _ Hs).
  reflexivity.
Qed.

(** An id is out of reach in [w] when it is not in the store and no later
    draw of [uuid4] yields it. *)
Lemma world_after_out_of_reach w sid s s' k evs key :
  agents_store w !! sid = Some s ->
  agents_store w !! key = None ->
  agents_store (world_after w sid s' k evs) !! key = None /\
  uuids (world_after w sid s' k evs) = uuids w.
Proof.
  intros Hs Hkey. split; [|reflexivity].
  rewrite world_after_other; [exact Hkey|]. intros ->. congruence.
Qed.

Lemma process_chat_out_of_reach w chat_request key :
  agents_store w !! key = None ->
  agents_store (snd (process_chat chat_request w)) !! key = None /\
  uuids (snd (process_chat chat_request w)) = uuids w.
Proof.
  intros Hkey.
  destruct (agents_store w !! session_id chat_request) as [s|] eqn:Hs.
  - rewrite (process_chat_known _ _ _ Hs), chat_turn_run.
    destruct (image_step chat_request (message chat_request) w) as [[user_input|e] w1]
      eqn:Himg;
      destruct (image_step_frame _ _ _ _ _ _ Hs Himg) as (ist & evs & -> & _).
    + match goal with
      | |- context [conversation_step ?sid ?u (world_after ?w ?sid (session_after ?s0 ?c ?t ?i ?l) ?k ?evs)] =>
          destruct (conversation_step_calls w sid s0 c t i l k evs u)
            as (s' & k' & more & Hcalls)
      end.
      destruct (conversation_step _ _ _) as [[r|e] w2]; simpl in Hcalls; subst w2;
        simpl snd; now apply (world_after_out_of_reach _ _ s).
    + simpl snd. now apply (world_after_out_of_reach _ _ s).
  - rewrite (process_chat_unknown _ _ Hs). now split.
Qed.

Lemma clear_conversation_out_of_reach w sid key :
  agents_store w !! key = None ->
  agents_store (snd (clear_conversation sid w)) !! key = None /\
  uuids (snd (clear_conversation sid w)) = uuids w.
Proof.
  intros Hkey. destruct (agents_store w !! sid) as [s|] eqn:Hs.
  - rewrite (clear_conversation_known _ _ _ Hs). cbv zeta. simpl snd.
    now apply (world_after_out_of_reach _ _ s).
  - rewrite (clear_conversation_unknown _ _ Hs). now split.
Qed.

Lemma upload_image_out_of_reach w sid file key :
  agents_store w !! key = None ->
  agents_store (snd (upload_image sid file w)) !! key = None /\
  uuids (snd (upload_image sid file w)) = uuids w.
Proof.
  intros Hkey. destruct (agents_store w !! sid) as [s|] eqn:Hs.
  - rewrite (upload_image_known _ _ _ _ Hs).
    destruct (content_type file) as [declared|]; [|now split].
    destruct (negb (String.prefix "image/" declared)); [now split|].
    destruct (file_read file) as [file_content|e]; [|now split].
    cbv zeta. simpl snd. now apply (world_after_out_of_reach _ _ s).
  - rewrite (upload_image_unknown _ _ _ Hs). now split.
Qed.

Lemma delete_session_out_of_reach w sid key :
  agents_store w !! key = None ->
  agents_store (snd (delete_session sid w)) !! key = None /\
  uuids (snd (delete_session sid w)) = uuids w.
Proof.
  intros Hkey. destruct (agents_store w !! sid) as [s|] eqn:Hs.
  - rewrite (delete_session_known _ _ _ Hs). simpl. split; [|reflexivity].
    apply lookup_delete_None. now right.
  - rewrite (delete_session_unknown _ _ Hs). now split.
Qed.

Lemma setup_agents_out_of_reach w config key :
  agents_store w !! key = None ->
  uuid4 (uuids w) <> key ->
  agents_store (snd (setup_agents config w)) !! key = None /\
  uuids w <= uuids (snd (setup_agents config w)).
Proof.
  intros Hkey Hfresh. unfold setup_agents.
  destruct (negb _); [now split|].
  rewrite bind_run. unfold fresh_uuid. rewrite try_except_run, bind_run.
  unfold new at 1.
  destruct (ConversationAgent _ _) as [cst|e]; [|simpl; split; [exact Hkey | lia]].
  rewrite bind_run. unfold new at 1.
  destruct (ShoppingTeam _ _ _ _ _) as [sst|e]; [|simpl; split; [exact Hkey | lia]].
  rewrite bind_run. unfold new at 1.
  destruct (ProductImageProcessingAgent _ _) as [ist|e]; [|simpl; split; [exact Hkey | lia]].
  simpl. split; [|lia]. now rewrite lookup_insert_ne.
Qed.

Lemma serve_out_of_reach r w key :
  agents_store w !! key = None ->
  (forall n, uuids w <= n -> uuid4 n <> key) ->
  agents_store (serve r w) !! key = None /\
  (forall n, uuids (serve r w) <= n -> uuid4 n <> key).
Proof.
  intros Hkey Hfresh.
  destruct r as [config|chat_request|sid|sid|sid|sid file]; simpl serve.
  - destruct (setup_agents_out_of_reach w config key Hkey) as [Hstore Hle].
    + now apply Hfresh.
    + split; [exact Hstore|]. intros n Hn. apply Hfresh. lia.
  - destruct (process_chat_out_of_reach w chat_request key Hkey) as [Hstore ->].
    now split.
  - rewrite get_messages_pure. now split.
  - destruct (clear_conversation_out_of_reach w sid key Hkey) as [Hstore ->].
    now split.
  - destruct (delete_session_out_of_reach w sid key Hkey) as [Hstore ->].
    now split.
  - destruct (upload_image_out_of_reach w sid file key Hkey) as [Hstore ->].
    now split.
Qed.

Lemma serve_all_out_of_reach rs w key :
  agents_store w !! key = None ->
  (forall n, uuids w <= n -> uuid4 n <> key) ->
  agents_store (serve_all rs w) !! key = None.
Proof.
  revert w. induction rs as [|r rs IH]; intros w Hkey Hfresh; [exact Hkey|].
  destruct (serve_out_of_reach r w key Hkey Hfresh) as [Hkey' Hfresh'].
  exact (IH (serve r w) Hkey' Hfresh').
Qed.

(** C8.  Once a session is deleted, its id is unknown, and stays unknown
    whatever requests are served afterwards (as long as [uuid4] does not
    issue that id again): a chat turn on it is answered with the 404
    response without touching the process, and so are a second deletion,
    a clearing and an upload. *)
Theorem deleted_session_is_not_found w sid answer w' rs :
  delete_session sid w = (Ok answer, w') ->
  (forall n, uuids w' <= n -> uuid4 n <> sid) ->
  let later := serve_all rs w' in
  agents_store later !! sid = None /\
  (forall chat_request,
     session_id chat_request = sid ->
     process_chat chat_request later
     = (Raise (HTTPException 404 "Session not found. Please configure agents first."),
        later)) /\
  delete_session sid later = (Raise (HTTPException 404 "Session not found"), later) /\
  clear_conversation sid later = (Raise (HTTPException 404 "Session not found"), later) /\
  (forall file,
     upload_image sid file later
     = (Raise (HTTPException 404 "Session not found"), later)).
Proof.
  intros Hdelete Hfresh later.
  assert (Hgone : agents_store w' !! sid = None).
  { destruct (agents_store w !! sid) as [s|] eqn:Hs.
    - rewrite (delete_session_known _ _ _ Hs) in Hdelete.
      injection Hdelete as _ <-. simpl. apply lookup_delete_eq.
    - rewrite (delete_session_unknown _ _ Hs) in Hdelete. discriminate. }
  assert (Hlater : agents_store later !! sid = None)
    by exact (serve_all_out_of_reach rs w' sid Hgone Hfresh).
  split; [exact Hlater|]. split; [|split; [|split]].
  - intros chat_request <-. now apply process_chat_unknown.
  - now apply delete_session_unknown.
  - now apply clear_conversation_unknown.
  - intros file. now apply upload_image_unknown.
Qed.

End Properties.

(** * The properties on the concrete environment *)

Example sample_world_session :
  agents_store sample_world !! "session-0" = Some sample_session.
Proof. reflexivity. Qed.

Example asked_world_session :
  agents_store asked_world !! "session-0" = Some asked_session.
Proof. reflexivity. Qed.

(** The first turn of a conversation: the agent asks for more. *)
Lemma continue_turn_skips_search_witness :
  exists w' s',
    @process_chat sample_runtime sample_collaborators
      (text_request "session-0" "I want running shoes") sample_world
      = (Ok {| type := "conversation";
               resp_message := "What size and budget?";
               products_html := None;
               continue_conversation := true;
               resp_timestamp := "2025-01-01T00:00:03" |}, w') /\
    agents_store w' !! "session-0" = Some s' /\
    messages s'
      = [user_message "I want running shoes" "2025-01-01T00:00:01";
         assistant_message "What size and budget?" "2025-01-01T00:00:02"] /\
    shopping_team s' = shopping_team sample_session /\
    calls w' = [Call_process_query 0 "I want running shoes"] /\
    exists evs, calls w' = calls sample_world ++ evs /\
                Forall (fun ev => is_run ev = false) evs.
Proof.
  apply (@continue_turn_skips_search sample_runtime sample_collaborators
           sample_world (text_request "session-0" "I want running shoes")
           sample_session "I want running shoes" sample_world
           {| have_further_conversation := true;
              conv_message := "What size and budget?";
              data := None |}
           ["I want running shoes"]); reflexivity.
Defined.

(** The second turn: the agent has what it needs and the search runs. *)
Lemma search_turn_appends_product_results_witness :
  exists w' s' appended,
    @process_chat sample_runtime sample_collaborators
      (text_request "session-0" "size 10, under $100") asked_world
      = (Ok {| type := "product_search";
               resp_message := "Searching for products";
               products_html := Some "<ul>I want running shoes;size 10, under $100</ul>";
               continue_conversation := false;
               resp_timestamp := "2025-01-01T00:00:07" |}, w') /\
    agents_store w' !! "session-0" = Some s' /\
    messages s' = messages asked_session ++ appended /\
    appended
      = [user_message "size 10, under $100" "2025-01-01T00:00:04";
         assistant_message "Searching for products" "2025-01-01T00:00:05";
         product_message "<ul>I want running shoes;size 10, under $100</ul>"
           "2025-01-01T00:00:06"] /\
    List.filter is_product_results appended
      = [product_message "<ul>I want running shoes;size 10, under $100</ul>"
           "2025-01-01T00:00:06"] /\
    calls w'
      = calls asked_world ++
        [Call_process_query 0 "size 10, under $100";
         @Call_run sample_collaborators 1
           ["I want running shoes"; "size 10, under $100"]].
Proof.
  apply (@search_turn_appends_product_results sample_runtime sample_collaborators
           asked_world (text_request "session-0" "size 10, under $100")
           asked_session "size 10, under $100" asked_world
           {| have_further_conversation := false;
              conv_message := "Searching for products";
              data := Some ["I want running shoes"; "size 10, under $100"] |}
           ["I want running shoes"; "size 10, under $100"]
           ["I want running shoes"; "size 10, under $100"]
           "<ul>I want running shoes;size 10, under $100</ul>" 1); reflexivity.
Defined.

(** Three failed turns: an image that does not decode, a query the agent
    rejects, a search that fails. *)
Lemma failed_turn_keeps_earlier_messages_witness :
  (exists w' s',
     @process_chat sample_runtime sample_collaborators
       (image_request "session-0" "these shoes" "data:image/png;base64,A") sample_world
       = (Raise (HTTPException 500
            "Processing error: Invalid base64-encoded string: number of data characters (1) cannot be 1 more than a multiple of 4"),
          w') /\
     agents_store w' !! "session-0" = Some s' /\
     same_bundle sample_session s' /\
     messages s' = []) /\
  (exists w' s',
     @process_chat sample_runtime sample_collaborators
       (text_request "session-0" "") sample_world
       = (Raise (HTTPException 500 "Processing error: empty query"), w') /\
     agents_store w' !! "session-0" = Some s' /\
     same_bundle sample_session s' /\
     messages s' = [user_message "" "2025-01-01T00:00:01"]) /\
  (exists w' s',
     @process_chat sample_runtime sample_collaborators
       (text_request "session-0" "out of stock") asked_world
       = (Raise (HTTPException 500 "Processing error: search failed"), w') /\
     agents_store w' !! "session-0" = Some s' /\
     same_bundle asked_session s' /\
     messages s'
       = messages asked_session ++
         [user_message "out of stock" "2025-01-01T00:00:04";
          assistant_message "Searching for products" "2025-01-01T00:00:05"]).
Proof.
  split; [|split].
  - refine (proj1 (@failed_turn_keeps_earlier_messages sample_runtime
                     sample_collaborators sample_world
                     (image_request "session-0" "these shoes" "data:image/png;base64,A")
                     sample_session eq_refl) _ _ eq_refl).
  - refine (proj1 (proj2 (@failed_turn_keeps_earlier_messages sample_runtime
                     sample_collaborators sample_world
                     (text_request "session-0" "") sample_session eq_refl))
              "" sample_world (Exception "empty query") [] eq_refl eq_refl).
  - refine (proj2 (proj2 (@failed_turn_keeps_earlier_messages sample_runtime
                     sample_collaborators asked_world
                     (text_request "session-0" "out of stock") asked_session eq_refl))
              "out of stock" asked_world
              {| have_further_conversation := false;
                 conv_message := "Searching for products";
                 data := Some ["I want running shoes"; "out of stock"] |}
              ["I want running shoes"; "out of stock"]
              (Exception "search failed") eq_refl eq_refl eq_refl _).
    right. exists ["I want running shoes"; "out of stock"], 1. split; reflexivity.
Defined.



(** A turn with an image of two bytes and the caption "these shoes". *)
Lemma image_text_replaces_message_witness :
  (exists s' later more,
     agents_store
       (snd (@process_chat sample_runtime sample_collaborators
               (image_request "session-0" "these shoes" "data:image/png;base64,aGk=")
               sample_world)) !! "session-0" = Some s' /\
     messages s'
       = [] ++ user_message "red running shoes" "2025-01-01T00:00:01" :: later /\
     calls
       (snd (@process_chat sample_runtime sample_collaborators
               (image_request "session-0" "these shoes" "data:image/png;base64,aGk=")
               sample_world))
       = [] ++
         Call_b64decode "aGk=" ::
         Call_process_image 2 ["h"%byte; "i"%byte] "these shoes" ::
         Call_process_query 0 "red running shoes" :: more) /\
  fst (@process_chat sample_runtime sample_collaborators
         (image_request "session-0" "those boots" "data:image/png;base64,aGk=")
         sample_world)
  = fst (@process_chat sample_runtime sample_collaborators
           (image_request "session-0" "these shoes" "data:image/png;base64,aGk=")
           sample_world).
Proof.
  pose proof (@image_text_replaces_message sample_runtime sample_collaborators
                sample_world
                (image_request "session-0" "these shoes" "data:image/png;base64,aGk=")
                sample_session "data:image/png;base64,aGk=" "aGk="
                ["h"%byte; "i"%byte] "red running shoes" 1
                eq_refl eq_refl eq_refl eq_refl eq_refl eq_refl) as [Hturn Hother].
  split; [exact Hturn|].
  exact (proj1 (Hother "those boots" eq_refl)).
Defined.

(** A payload with a second comma: the remainder after the first comma is
    "aGVs,bG8h", which the decoder reads as six bytes, but what is decoded
    is "aGVs" and the image processor gets three bytes. *)
Lemma chat_decodes_whole_remainder_fails :
  remainder_after_first_comma "data:image/png;base64,aGVs,bG8h" = Some "aGVs,bG8h" /\
  py_b64decode "aGVs,bG8h"
    = Ok ["h"%byte; "e"%byte; "l"%byte; "l"%byte; "o"%byte; "!"%byte] /\
  calls
    (snd (@process_chat sample_runtime sample_collaborators
            (image_request "session-0" "these shoes" "data:image/png;base64,aGVs,bG8h")
            sample_world))
  = [Call_b64decode "aGVs";
     Call_process_image 2 ["h"%byte; "e"%byte; "l"%byte] "these shoes";
     Call_process_query 0 "red running shoes"] /\
  ~ In (@Call_b64decode sample_collaborators "aGVs,bG8h")
      (calls
         (snd (@process_chat sample_runtime sample_collaborators
                 (image_request "session-0" "these shoes"
                    "data:image/png;base64,aGVs,bG8h")
                 sample_world))).
Proof.
  split; [reflexivity|]. split; [reflexivity|]. split; [reflexivity|].
  intros Hin. vm_compute in Hin.
  destruct Hin as [Hin|[Hin|[Hin|[]]]]; discriminate Hin.
Qed.

Lemma chat_decodes_text_up_to_second_comma_witness :
  (exists more,
     calls
       (snd (@process_chat sample_runtime sample_collaborators
               (image_request "session-0" "these shoes" "data:image/png;base64,aGk=")
               sample_world))
     = [] ++ Call_b64decode "aGk=" :: more) /\
  (has_comma "aGk=" = false <-> before_first_comma "aGk=" = "aGk=").
Proof.
  exact (@chat_decodes_text_up_to_second_comma sample_runtime sample_collaborators
           sample_world
           (image_request "session-0" "these shoes" "data:image/png;base64,aGk=")
           sample_session "data:image/png;base64,aGk=" "aGk=" eq_refl eq_refl eq_refl).
Defined.

(** The sample conversation agent honours the contract of [reset]: its
    initial dialogue state is the empty list of things heard. *)
Example sample_reset_contract :
  @reset_returns_to_initial sample_collaborators (fun heard => heard = []).
Proof. intros heard. split; reflexivity. Qed.

(** Clearing the session after its first turn. *)
Lemma clear_keeps_session_and_collaborators_witness :
  exists w' s',
    @clear_conversation sample_collaborators "session-0" asked_world
      = (Ok {| success := true; status_message := "Conversation cleared" |}, w') /\
    agents_store w' !! "session-0" = Some s' /\
    @get_messages sample_collaborators "session-0" w' = (Ok [], w') /\
    same_bundle asked_session s' /\
    next_oid w' = next_oid asked_world /\
    shopping_team s' = shopping_team asked_session /\
    image_processor s' = image_processor asked_session /\
    ostate (conversation_agent s') = [] /\
    calls w' = calls asked_world ++ [Call_reset 0].
Proof.
  destruct (@clear_keeps_session_and_collaborators sample_collaborators
              asked_world "session-0" asked_session eq_refl)
    as (r & w' & s' & Hclear & Hs' & Hget & Hbundle & Hoid & Hteam & Himage & Hstate
        & Hcalls & Hcontract).
  destruct (Hcontract (fun heard => heard = []) sample_reset_contract) as [-> Hinitial].
  exists w', s'. repeat split; try assumption; apply Hbundle.
Defined.

Lemma sample_uuid4_not_reissued n :
  1 <= n -> @uuid4 sample_runtime n <> "session-0".
Proof.
  intros Hn Heq. simpl in Heq. injection Heq as Heq.
  change (pretty n = pretty 0) in Heq. apply (inj pretty) in Heq. lia.
Qed.

(** Deleting the session, then serving a chat turn on it, a new
    configuration and a read of its messages. *)
Lemma deleted_session_is_not_found_witness :
  agents_store later_world !! "session-0" = None /\
  (forall chat_request,
     session_id chat_request = "session-0" ->
     @process_chat sample_runtime sample_collaborators chat_request later_world
     = (Raise (HTTPException 404 "Session not found. Please configure agents first."),
        later_world)) /\
  @delete_session sample_collaborators "session-0" later_world
    = (Raise (HTTPException 404 "Session not found"), later_world) /\
  @clear_conversation sample_collaborators "session-0" later_world
    = (Raise (HTTPException 404 "Session not found"), later_world) /\
  (forall file,
     @upload_image sample_collaborators "session-0" file later_world
     = (Raise (HTTPException 404 "Session not found"), later_world)).
Proof.
  exact (@deleted_session_is_not_found sample_runtime sample_collaborators
           asked_world "session-0"
           {| success := true; status_message := "Session deleted" |}
           deleted_world
           [PostChat (text_request "session-0" "size 10, under $100");
            PostConfig sample_config;
            GetMessages "session-0"]
           eq_refl sample_uuid4_not_reissued).
Defined.

(** Uploading an image to the session after its first turn. *)
Lemma upload_image_leaves_history_witness :
  (exists s',
     agents_store (snd (@upload_image sample_collaborators "session-0" sample_upload
                          asked_world))
       = <["session-0" := s']> (agents_store asked_world) /\
     messages s' = messages asked_session /\
     conversation_agent s' = conversation_agent asked_session /\
     shopping_team s' = shopping_team asked_session /\
     created_at s' = created_at asked_session /\
     oid (image_processor s') = oid (image_processor asked_session)) /\
  fst (@get_messages sample_collaborators "session-0"
         (snd (@upload_image sample_collaborators "session-0" sample_upload asked_world)))
    = fst (@get_messages sample_collaborators "session-0" asked_world) /\
  fst (@upload_image sample_collaborators "session-0" sample_upload asked_world)
    = Ok {| up_success := true; extracted_text := "red running shoes";
            filename := Some "shoe.png" |} /\
  calls (snd (@upload_image sample_collaborators "session-0" sample_upload asked_world))
    = calls asked_world ++ [Call_process_image 2 ["x"%byte] ""].
Proof.
  destruct (@upload_image_leaves_history sample_collaborators
              asked_world "session-0" asked_session sample_upload eq_refl)
    as (Hentry & Hget & Hdone).
  split; [exact Hentry|]. split; [exact Hget|].
  exact (Hdone "image/png" ["x"%byte] "red running shoes" 1
           eq_refl eq_refl eq_refl eq_refl).
Defined.

(** * Further properties of the endpoints *)

Section Further.
Context `{Runtime} `{Collaborators}.

Implicit Types (w : World) (s : Session) (sid : string).

(** ** The ways a turn can end

    A turn on a known session ends in one of six ways: step 1 fails; the
    conversation agent fails; the agent goes on; the agent is done but
    its answer has no ["data"]; the search fails; the search succeeds.
    Each fixes the response and the state of the process. *)
Lemma process_chat_cases w chat_request s :
  agents_store w !! session_id chat_request = Some s ->
  let sid := session_id chat_request in
  let c0 := ostate (conversation_agent s) in
  let t0 := ostate (shopping_team s) in
  let failed (e : exn) := Raise (HTTPException 500 ("Processing error: " ++ str e)) in
  (exists e ist evs,
     Forall (fun ev => is_image_call ev = true) evs /\
     image_step chat_request (message chat_request) w
       = (Raise e, world_after w sid (session_after s c0 t0 ist []) 0 evs) /\
     process_chat chat_request w
       = (failed e, world_after w sid (session_after s c0 t0 ist []) 0 evs)) \/
  (exists user_input ist evs,
     Forall (fun ev => is_image_call ev = true) evs /\
     image_step chat_request (message chat_request) w
       = (Ok user_input, world_after w sid (session_after s c0 t0 ist []) 0 evs) /\
     let r := process_query c0 user_input in
     let asked := evs ++ [Call_process_query (oid (conversation_agent s)) user_input] in
     let said := user_message user_input (isoformat (clock w)) in
     ((exists e,
         fst r = Raise e /\
         process_chat chat_request w
           = (failed e,
              world_after w sid (session_after s (snd r) t0 ist [said]) 1 asked)) \/
      (exists conversation_response,
         fst r = Ok conversation_response /\
         let reply := assistant_message (conv_message conversation_response)
                        (isoformat (clock w + 1)) in
         ((have_further_conversation conversation_response = true /\
           process_chat chat_request w
             = (Ok {| type := "conversation";
                      resp_message := conv_message conversation_response;
                      products_html := None;
                      continue_conversation := true;
                      resp_timestamp := isoformat (clock w + 2) |},
                world_after w sid (session_after s (snd r) t0 ist [said; reply]) 3
                  asked)) \/
          (have_further_conversation conversation_response = false /\
           data conversation_response = None /\
           process_chat chat_request w
             = (failed (Exception "'data'"),
                world_after w sid (session_after s (snd r) t0 ist [said; reply]) 2
                  asked)) \/
          (exists payload,
             have_further_conversation conversation_response = false /\
             data conversation_response = Some payload /\
             let found := run t0 payload in
             let searched := asked ++ [Call_run (oid (shopping_team s)) payload] in
             ((exists e,
                 fst found = Raise e /\
                 process_chat chat_request w
                   = (failed e,
                      world_after w sid
                        (session_after s (snd r) (snd found) ist [said; reply]) 2
                        searched)) \/
              (exists html,
                 fst found = Ok html /\
                 process_chat chat_request w
                   = (Ok {| type := "product_search";
                            resp_message := conv_message conversation_response;
                            products_html := Some html;
                            continue_conversation := false;
                            resp_timestamp := isoformat (clock w + 3) |},
                      world_after w sid
                        (session_after s (snd r) (snd found) ist
                           [said; reply;
                            product_message html (isoformat (clock w + 2))]) 4
                        searched)))))))).
Proof.
  intros Hs sid c0 t0 failed.
  destruct (image_step chat_request (message chat_request) w) as [[user_input|e] w1]
    eqn:Himg;
    destruct (image_step_frame _ _ _ _ _ _ Hs Himg) as (ist & evs & -> & Hevs).
  - right. exists user_input, ist, evs. split; [exact Hevs|]. split; [reflexivity|].
    rewrite (process_chat_known _ _ _ Hs), chat_turn_run, Himg.
    rewrite conversation_step_run. cbv zeta. fold c0 t0 sid.
    rewrite Nat.add_0_r.
    destruct (process_query c0 user_input) as [[conversation_response|e] cst];
      simpl fst; simpl snd; cbv iota.
    + right. exists conversation_response. split; [reflexivity|].
      rewrite respond_run. cbv zeta.
      destruct (have_further_conversation conversation_response).
      * left. split; reflexivity.
      * right. destruct (data conversation_response) as [payload|].
        -- right. exists payload. split; [reflexivity|]. split; [reflexivity|].
           destruct (run t0 payload) as [[html|e] sst]; simpl fst; simpl snd; cbv iota.
           ++ right. exists html. split; reflexivity.
           ++ left. exists e. split; reflexivity.
        -- left. repeat split; reflexivity.
    + left. exists e. split; reflexivity.
  - left. exists e, ist, evs. split; [exact Hevs|]. split; [reflexivity|].
    rewrite (process_chat_known _ _ _ Hs), chat_turn_run, Himg. reflexivity.
Qed.

Ltac turn_cases Hs :=
  let Hc := fresh "Hc" in
  pose proof (process_chat_cases _ _ _ Hs) as Hc; cbv zeta in Hc;
  destruct Hc as
    [(e & ist & evs & Hevs & Himg & Hchat)
    |(user_input & ist & evs & Hevs & Himg &
       [(e & Hquery & Hchat)
       |(conversation_response & Hquery &
          [(Hmore & Hchat)
          |[(Hmore & Hdata & Hchat)
           |(payload & Hmore & Hdata &
              [(e & Hrun & Hchat)|(html & Hrun & Hchat)])]])])].

(** Whatever the outcome of a turn on a known session, the entry of the
    session is the old one with its collaborators in new states and some
    messages appended. *)
Lemma process_chat_shape w chat_request s :
  agents_store w !! session_id chat_request = Some s ->
  exists cst sst ist appended k evs,
    snd (process_chat chat_request w)
    = world_after w (session_id chat_request) (session_after s cst sst ist appended) k evs.
Proof.
  intros Hs. turn_cases Hs; rewrite Hchat; simpl snd; do 6 eexists; reflexivity.
Qed.

Lemma session_after_messages s cst sst ist appended :
  messages (session_after s cst sst ist appended) = messages s ++ appended.
Proof. reflexivity. Qed.

(** ** The registry under requests *)

Lemma serve_addressed r w t :
  request_session r = Some t ->
  (exists s, agents_store w !! t = Some s /\
     ((exists s' k evs, serve r w = world_after w t s' k evs) \/
      serve r w = w \/
      (r = DeleteSession t /\ serve r w = set_store (delete t) w))) \/
  (agents_store w !! t = None /\ serve r w = w).
Proof.
  intros Hr.
  destruct (agents_store w !! t) as [s|] eqn:Hs; [left; exists s; split; [reflexivity|] | right; split; [reflexivity|]].
  - destruct r as [config|chat_request|sid|sid|sid|sid file]; simpl in Hr;
      try discriminate; injection Hr as <-; simpl serve.
    + left. destruct (process_chat_shape _ _ _ Hs) as (cst & sst & ist & appended & k & evs & ->).
      do 3 eexists. reflexivity.
    + right. left. apply get_messages_pure.
    + left. rewrite (clear_conversation_known _ _ _ Hs). cbv zeta. simpl snd.
      do 3 eexists. reflexivity.
    + right. right. split; [reflexivity|].
      now rewrite (delete_session_known _ _ _ Hs).
    + rewrite (upload_image_known _ _ _ _ Hs).
      destruct (content_type file) as [declared|]; [|right; left; reflexivity].
      destruct (negb (String.prefix "image/" declared)); [right; left; reflexivity|].
      destruct (file_read file) as [file_content|e]; [|right; left; reflexivity].
      left. cbv zeta. simpl snd. do 3 eexists. reflexivity.
  - destruct r as [config|chat_request|sid|sid|sid|sid file]; simpl in Hr;
      try discriminate; injection Hr as <-; simpl serve.
    + now rewrite (process_chat_unknown _ _ Hs).
    + apply get_messages_pure.
    + now rewrite (clear_conversation_unknown _ _ Hs).
    + now rewrite (delete_session_unknown _ _ Hs).
    + now rewrite (upload_image_unknown _ _ _ Hs).
Qed.

Lemma other_sessions_untouched r w t k :
  request_session r = Some t ->
  t <> k ->
  agents_store (serve r w) !! k = agents_store w !! k.
Proof.
  intros Hr Hne.
  destruct (serve_addressed r w t Hr)
    as [(s & Hs & [(s' & n & evs & ->)|[->|[_ ->]]])|[_ ->]]; try reflexivity.
  - now apply world_after_other.
  - simpl. now apply lookup_delete_ne.
Qed.

(** X1.  A request that addresses a session leaves the entry of every
    other session exactly as it was, whatever the request and whatever its
    outcome; so does a configuration, for every id other than the one it
    draws. *)
Theorem request_leaves_other_sessions r w k :
  match request_session r with
  | Some t => t <> k
  | None => uuid4 (uuids w) <> k
  end ->
  agents_store (serve r w) !! k = agents_store w !! k.
Proof.
  destruct (request_session r) as [t|] eqn:Hr.
  - now apply other_sessions_untouched.
  - destruct r as [config| | | | |]; try discriminate. intros Hfresh.
    simpl serve. unfold setup_agents.
    destruct (negb _); [reflexivity|].
    rewrite bind_run. unfold fresh_uuid. rewrite try_except_run, bind_run.
    unfold new at 1.
    destruct (ConversationAgent _ _) as [cst|e]; [|reflexivity].
    rewrite bind_run. unfold new at 1.
    destruct (ShoppingTeam _ _ _ _ _) as [sst|e]; [|reflexivity].
    rewrite bind_run. unfold new at 1.
    destruct (ProductImageProcessingAgent _ _) as [ist|e]; [|reflexivity].
    simpl. now rewrite lookup_insert_ne.
Qed.

(** X2.  No request other than a configuration creates a session, and
    only a deletion removes one: after a request addressing a session, an
    id is known exactly when it was known before and the request is not
    the deletion of that id. *)
Theorem only_deletion_changes_known_sessions r w t k :
  request_session r = Some t ->
  is_Some (agents_store (serve r w) !! k)
  <-> is_Some (agents_store w !! k) /\ r <> DeleteSession k.
Proof.
  intros Hr.
  assert (Hdel : r = DeleteSession k -> t = k)
    by (intros ->; simpl in Hr; congruence).
  destruct (serve_addressed r w t Hr)
    as [(s & Hs & [(s' & n & evs & Hw)|[Hw|[Hrd Hw]]])|[Hs Hw]]; rewrite Hw.
  - assert (Hnd : r <> DeleteSession k).
    { intros ->. simpl in Hw.
      pose proof (f_equal (fun w => agents_store w !! k) Hw) as Hk. simpl in Hk.
      assert (t = k) by (simpl in Hr; congruence). subst t.
      rewrite (delete_session_known _ _ _ Hs) in Hk. simpl in Hk.
      rewrite lookup_delete_eq, lookup_insert_eq in Hk. discriminate. }
    destruct (decide (t = k)) as [->|Hne].
    + rewrite world_after_lookup, Hs. split; [intros _; split; [eauto|exact Hnd] | eauto].
    + rewrite (world_after_other _ _ _ _ _ _ Hne). tauto.
  - split; [intros Hk; split; [exact Hk|] | tauto].
    intros Hrd. pose proof (Hdel Hrd) as <-. subst r. simpl in Hw.
    rewrite (delete_session_known _ _ _ Hs) in Hw. simpl in Hw.
    pose proof (f_equal (fun w => agents_store w !! t) Hw) as Ht. simpl in Ht.
    rewrite lookup_delete_eq, Hs in Ht. discriminate.
  - subst r. simpl. destruct (decide (t = k)) as [->|Hne].
    + rewrite lookup_delete_eq. split; [intros [x Hx]; discriminate | tauto].
    + rewrite lookup_delete_ne by exact Hne.
      split; [intros Hk; split; [exact Hk | congruence] | tauto].
  - split; [intros Hk; split; [exact Hk|] | tauto].
    intros Hrd. pose proof (Hdel Hrd) as <-. rewrite Hs in Hk.
    destruct Hk as [x Hx]. discriminate.
Qed.

(** X3.  A request on an id that is not in the store: the chat, clear,
    delete and upload endpoints answer 404 and the messages endpoint
    answers the empty list; none of them changes the process, so no
    session comes into being and no collaborator is called. *)
Theorem unknown_session_is_rejected w sid :
  agents_store w !! sid = None ->
  (forall chat_request,
     session_id chat_request = sid ->
     process_chat chat_request w
     = (Raise (HTTPException 404 "Session not found. Please configure agents first."), w)) /\
  clear_conversation sid w = (Raise (HTTPException 404 "Session not found"), w) /\
  delete_session sid w = (Raise (HTTPException 404 "Session not found"), w) /\
  (forall file,
     upload_image sid file w = (Raise (HTTPException 404 "Session not found"), w)) /\
  get_messages sid w = (Ok [], w).
Proof.
  intros Hs. split; [|split; [|split; [|split]]].
  - intros chat_request <-. now apply process_chat_unknown.
  - now apply clear_conversation_unknown.
  - now apply delete_session_unknown.
  - intros file. now apply upload_image_unknown.
  - now apply get_messages_unknown.
Qed.

Lemma serve_keeps_history r w sid s :
  agents_store w !! sid = Some s ->
  may_reset sid r = false ->
  exists s' appended,
    agents_store (serve r w) !! sid = Some s' /\
    messages s' = messages s ++ appended /\
    same_bundle s s'.
Proof.
  intros Hs Hr.
  assert (Hsame : exists s' appended,
            agents_store w !! sid = Some s' /\
            messages s' = messages s ++ appended /\ same_bundle s s').
  { exists s, []. rewrite app_nil_r. repeat split. exact Hs. }
  destruct r as [config|chat_request|k|k|k|k file]; simpl in Hr; try discriminate;
    simpl serve.
  - destruct (decide (session_id chat_request = sid)) as [<-|Hne].
    + destruct (process_chat_shape _ _ _ Hs)
        as (cst & sst & ist & appended & n & evs & ->).
      exists (session_after s cst sst ist appended), appended.
      split; [apply world_after_lookup|]. split; [reflexivity|].
      apply session_after_same_bundle.
    + change (snd (process_chat chat_request w)) with (serve (PostChat chat_request) w).
      rewrite (other_sessions_untouched (PostChat chat_request) w _ sid eq_refl Hne).
      exact Hsame.
  - rewrite get_messages_pure. exact Hsame.
  - apply String.eqb_neq in Hr.
    change (snd (clear_conversation k w)) with (serve (PostClear k) w).
    rewrite (other_sessions_untouched (PostClear k) w _ sid eq_refl Hr).
    exact Hsame.
  - apply String.eqb_neq in Hr.
    change (snd (delete_session k w)) with (serve (DeleteSession k) w).
    rewrite (other_sessions_untouched (DeleteSession k) w _ sid eq_refl Hr).
    exact Hsame.
  - destruct (decide (k = sid)) as [->|Hne].
    + rewrite (upload_image_known _ _ _ _ Hs).
      destruct (content_type file) as [declared|]; [|exact Hsame].
      destruct (negb (String.prefix "image/" declared)); [exact Hsame|].
      destruct (file_read file) as [file_content|e]; [|exact Hsame].
      cbv zeta. simpl snd. eexists _, []. split; [apply world_after_lookup|].
      rewrite app_nil_r. repeat split.
    + change (snd (upload_image k file w)) with (serve (PostUploadImage k file) w).
      rewrite (other_sessions_untouched (PostUploadImage k file) w _ sid eq_refl Hne).
      exact Hsame.
Qed.

(** X4.  The history of a session is append-only under every sequence of
    requests that contains no configuration and neither clears nor
    deletes that session: the session is still there afterwards, the same
    bundle, and the messages it had are the first messages it has, in the
    same order. *)
Theorem history_only_grows rs w sid s :
  agents_store w !! sid = Some s ->
  forallb (fun r => negb (may_reset sid r)) rs = true ->
  exists s' appended,
    agents_store (serve_all rs w) !! sid = Some s' /\
    messages s' = messages s ++ appended /\
    same_bundle s s'.
Proof.
  revert w s. induction rs as [|r rs IH]; intros w s Hs Hrs.
  - exists s, []. rewrite app_nil_r. repeat split. exact Hs.
  - simpl in Hrs. apply andb_true_iff in Hrs as [Hr Hrs]. apply negb_true_iff in Hr.
    destruct (serve_keeps_history r w sid s Hs Hr) as (s1 & l1 & Hs1 & Hm1 & Hb1).
    destruct (IH (serve r w) s1 Hs1 Hrs) as (s2 & l2 & Hs2 & Hm2 & Hb2).
    exists s2, (l1 ++ l2). split; [exact Hs2|]. split.
    + now rewrite Hm2, Hm1, app_assoc.
    + destruct Hb1 as (? & ? & ? & ?), Hb2 as (? & ? & ? & ?).
      repeat split; congruence.
Qed.

(** ** More on a turn *)

(** X5.  A turn that answers with a response did one of two things.
    Either the response is a ["conversation"] response that continues the
    conversation and has no [products_html], and the history gained a
    user message and the assistant message whose content is the message
    of the response; or it is a ["product_search"] response that ends the
    conversation, and the history gained a user message, that assistant
    message, and a product message whose content is the [products_html]
    of the response. *)
Theorem response_matches_history w chat_request response w' :
  process_chat chat_request w = (Ok response, w') ->
  exists s s' said reply_ts,
    agents_store w !! session_id chat_request = Some s /\
    agents_store w' !! session_id chat_request = Some s' /\
    role said = "user" /\
    ((type response = "conversation" /\
      continue_conversation response = true /\
      products_html response = None /\
      messages s'
        = messages s ++ [said; assistant_message (resp_message response) reply_ts]) \/
     (type response = "product_search" /\
      continue_conversation response = false /\
      exists html product_ts,
        products_html response = Some html /\
        messages s'
          = messages s ++
            [said; assistant_message (resp_message response) reply_ts;
             product_message html product_ts])).
Proof.
  intros Hturn.
  destruct (agents_store w !! session_id chat_request) as [s|] eqn:Hs;
    [|rewrite (process_chat_unknown _ _ Hs) in Hturn; discriminate].
  exists s.
  turn_cases Hs; rewrite Hchat in Hturn; try discriminate;
    injection Hturn as <- <-;
    eexists _, (user_message user_input _), _; (split; [reflexivity|]);
    (split; [apply world_after_lookup|]); (split; [reflexivity|]).
  - left. repeat split.
  - right. split; [reflexivity|]. split; [reflexivity|].
    do 2 eexists. split; reflexivity.
Qed.

(** X6.  A turn that fails fails in one of two ways: with the 404
    response, the id being unknown and the process unchanged, or with a
    500 "Processing error" response on a known session.  In the second
    case the session is still there and its history gained at most two
    messages, none of them tagged: a failed turn never leaves product
    results in the history. *)
Theorem failed_turn_statuses w chat_request failure w' :
  process_chat chat_request w = (Raise failure, w') ->
  (agents_store w !! session_id chat_request = None /\
   failure = HTTPException 404 "Session not found. Please configure agents first." /\
   w' = w) \/
  (exists s s' cause appended,
     agents_store w !! session_id chat_request = Some s /\
     failure = HTTPException 500 ("Processing error: " ++ str cause) /\
     agents_store w' !! session_id chat_request = Some s' /\
     messages s' = messages s ++ appended /\
     length appended <= 2 /\
     Forall (fun m => msg_type m = None) appended).
Proof.
  intros Hturn.
  destruct (agents_store w !! session_id chat_request) as [s|] eqn:Hs.
  - right. exists s.
    assert (Hdone : forall cause n evs s' appended,
              length appended <= 2 ->
              Forall (fun m => msg_type m = None) appended ->
              messages s' = messages s ++ appended ->
              process_chat chat_request w
                = (Raise (HTTPException 500 ("Processing error: " ++ str cause)),
                   world_after w (session_id chat_request) s' n evs) ->
              exists s' cause appended,
                Some s = Some s /\
                failure = HTTPException 500 ("Processing error: " ++ str cause) /\
                agents_store w' !! session_id chat_request = Some s' /\
                messages s' = messages s ++ appended /\
                length appended <= 2 /\
                Forall (fun m => msg_type m = None) appended).
    { intros cause n evs s' appended Hlen Htags Hmsgs Hchat.
      rewrite Hchat in Hturn. injection Hturn as <- <-.
      exists s', cause, appended. split; [reflexivity|]. split; [reflexivity|].
      split; [apply world_after_lookup|]. repeat split; assumption. }
    turn_cases Hs; try (rewrite Hchat in Hturn; discriminate);
      refine (Hdone _ _ _ _ _ _ _ _ Hchat);
      try reflexivity; try (simpl; lia); repeat constructor.
  - left. rewrite (process_chat_unknown _ _ Hs) in Hturn.
    injection Hturn as <- <-. repeat split.
Qed.

(** X7.  The calls of a turn on a known session, in order: calls of the
    decoder and the image processor, then at most one call of the
    conversation agent, then at most one call of the shopping team.  The
    shopping team is called only after the conversation agent answered
    that the conversation is over, and with the ["data"] of that answer. *)
Theorem turn_calls_in_order w chat_request s :
  agents_store w !! session_id chat_request = Some s ->
  exists image_calls rest,
    calls (snd (process_chat chat_request w)) = calls w ++ image_calls ++ rest /\
    Forall (fun ev => is_image_call ev = true) image_calls /\
    (rest = [] \/
     (exists user_input,
        rest = [Call_process_query (oid (conversation_agent s)) user_input]) \/
     (exists user_input conversation_response payload,
        rest = [Call_process_query (oid (conversation_agent s)) user_input;
                Call_run (oid (shopping_team s)) payload] /\
        fst (process_query (ostate (conversation_agent s)) user_input)
          = Ok conversation_response /\
        have_further_conversation conversation_response = false /\
        data conversation_response = Some payload)).
Proof.
  intros Hs.
  turn_cases Hs; rewrite Hchat; simpl snd; exists evs; eexists;
    (split; [simpl calls;
             first [ reflexivity
                   | rewrite <- app_assoc; reflexivity
                   | instantiate (1 := []); rewrite app_nil_r; reflexivity ]|]);
    (split; [exact Hevs|]).
  - left. reflexivity.
  - right. left. eexists. reflexivity.
  - right. left. eexists. reflexivity.
  - right. left. eexists. reflexivity.
  - right. right. do 3 eexists. split; [reflexivity|]. repeat split; eassumption.
  - right. right. do 3 eexists. split; [reflexivity|]. repeat split; eassumption.
Qed.

(** X8.  A turn does not undo what the conversation agent did: once
    step 1 has produced the text of the turn, the conversation agent of
    the session is left in the state [process_query] left it in, whether
    the turn then succeeds or fails (the agent raising, the ["data"]
    missing, the search failing).  When step 1 fails, the conversation
    agent and the shopping team are as they were. *)
Theorem dialogue_state_after_turn w chat_request s :
  agents_store w !! session_id chat_request = Some s ->
  exists s',
    agents_store (snd (process_chat chat_request w)) !! session_id chat_request
      = Some s' /\
    (forall user_input w1,
       image_step chat_request (message chat_request) w = (Ok user_input, w1) ->
       ostate (conversation_agent s')
         = snd (process_query (ostate (conversation_agent s)) user_input)) /\
    (forall e w1,
       image_step chat_request (message chat_request) w = (Raise e, w1) ->
       conversation_agent s' = conversation_agent s /\
       shopping_team s' = shopping_team s).
Proof.
  intros Hs.
  turn_cases Hs; rewrite Hchat; simpl snd; eexists;
    (split; [apply world_after_lookup|]); rewrite Himg; split;
    try (intros ? ? [=]; fail).
  - intros e0 w1 _. simpl. split; apply mutated_same.
  - intros u w1 [= <- _]. reflexivity.
  - intros u w1 [= <- _]. reflexivity.
  - intros u w1 [= <- _]. reflexivity.
  - intros u w1 [= <- _]. reflexivity.
  - intros u w1 [= <- _]. reflexivity.
Qed.

Lemma image_step_absent w chat_request user_input :
  image_data chat_request = None \/ image_data chat_request = Some "" ->
  image_step chat_request user_input w = (Ok user_input, w).
Proof. unfold image_step. now intros [-> | ->]. Qed.

(** X9.  A turn without an image ([image_data] absent or the empty
    string) on a known session: neither the decoder nor the image
    processor is called, the image processor is left as it was, and the
    text of the request is, unchanged, the content of the user message
    appended to the history and the argument of the one call of the
    conversation agent.  The calls of the turn are that call alone, or
    that call followed by one call of the shopping team. *)
Theorem plain_turn_uses_message_verbatim w chat_request s :
  agents_store w !! session_id chat_request = Some s ->
  image_data chat_request = None \/ image_data chat_request = Some "" ->
  exists s' later more,
    agents_store (snd (process_chat chat_request w)) !! session_id chat_request
      = Some s' /\
    messages s'
      = messages s ++
        user_message (message chat_request) (isoformat (clock w)) :: later /\
    calls (snd (process_chat chat_request w))
      = calls w ++
        Call_process_query (oid (conversation_agent s)) (message chat_request) :: more /\
    (more = [] \/ exists payload, more = [Call_run (oid (shopping_team s)) payload]) /\
    image_processor s' = image_processor s.
Proof.
  intros Hs Hplain.
  pose proof (image_step_absent w chat_request (message chat_request) Hplain) as Hstep.
  assert (Hstart : forall user_input ist evs,
            image_step chat_request (message chat_request) w
              = (Ok user_input,
                 world_after w (session_id chat_request)
                   (session_after s (ostate (conversation_agent s))
                      (ostate (shopping_team s)) ist []) 0 evs) ->
            user_input = message chat_request /\ evs = [] /\
            mutated (image_processor s) ist = image_processor s).
  { intros user_input ist evs Himg. rewrite Hstep in Himg.
    injection Himg as <- Hw. split; [reflexivity|].
    pose proof (f_equal calls Hw) as Hcalls. simpl in Hcalls.
    rewrite <- (app_nil_r (calls w)) in Hcalls at 1.
    apply app_inv_head in Hcalls.
    pose proof (f_equal (fun w => agents_store w !! session_id chat_request) Hw) as Hentry.
    simpl in Hentry. rewrite lookup_insert_eq, Hs in Hentry.
    injection Hentry as Hentry. split; [now symmetry|].
    rewrite Hentry at 2. reflexivity. }
  turn_cases Hs;
    try (rewrite Hstep in Himg; discriminate);
    destruct (Hstart _ _ _ Himg) as (-> & -> & Hip);
    rewrite Hchat; simpl snd; do 3 eexists;
    (split; [apply world_after_lookup|]);
    (split; [reflexivity|]); (split; [reflexivity|]);
    (split; [|exact Hip]).
  - now left.
  - now left.
  - now left.
  - right. now exists payload.
  - right. now exists payload.
Qed.

Lemma no_comma_no_remainder img :
  has_comma img = false -> remainder_after_first_comma img = None.
Proof.
  induction img as [|c rest IH]; simpl; [reflexivity|].
  destruct (Ascii.eqb c ","); [discriminate | exact IH].
Qed.

(** X10.  An image payload without any comma on a known session: the turn
    is answered with the 500 response "Processing error: list index out of
    range" before anything else happens; the decoder is not called and the
    process is exactly as it was. *)
Theorem payload_without_comma_is_rejected w chat_request s img :
  agents_store w !! session_id chat_request = Some s ->
  image_data chat_request = Some img ->
  truthy img = true ->
  has_comma img = false ->
  process_chat chat_request w
  = (Raise (HTTPException 500 "Processing error: list index out of range"), w).
Proof.
  intros Hs Himg Htruthy Hcomma.
  rewrite (process_chat_known _ _ _ Hs), chat_turn_run, (image_step_known _ _ _ _ Hs).
  cbv zeta.
  rewrite Himg, Htruthy, (encoded_part_no_comma _ (no_comma_no_remainder _ Hcomma)).
  reflexivity.
Qed.

(** ** Configuration *)

Lemma setup_agents_run config w :
  setup_agents config w
  = if negb (truthy (api_key_llm config) && truthy (api_key_search_tool config)
             && truthy (api_key_firecrawl config))
    then (Raise (HTTPException 400 "Missing required API keys"), w)
    else
      let failed (e : exn) :=
        Raise (HTTPException 500 ("Failed to initialize agents: " ++ str e)) in
      let drawn n :=
        {| agents_store := agents_store w; clock := clock w; uuids := S (uuids w);
           next_oid := next_oid w + n; calls := calls w |} in
      match ConversationAgent (api_key_llm config) (llm_mode config) with
      | Raise e => (failed e, drawn 0)
      | Ok cst =>
          match ShoppingTeam (api_key_llm config) (api_key_search_tool config)
                  (web_search_mode config) (llm_mode config) (api_key_firecrawl config) with
          | Raise e => (failed e, drawn 1)
          | Ok sst =>
              match ProductImageProcessingAgent (api_key_llm config) (llm_mode config) with
              | Raise e => (failed e, drawn 2)
              | Ok ist =>
                  (Ok {| sr_session_id := uuid4 (uuids w); sr_success := true;
                         sr_message := "Agents initialized successfully" |},
                   {| agents_store :=
                        <[uuid4 (uuids w) :=
                            {| conversation_agent :=
                                 {| oid := next_oid w; ostate := cst |};
                               shopping_team :=
                                 {| oid := next_oid w + 1; ostate := sst |};
                               image_processor :=
                                 {| oid := next_oid w + 2; ostate := ist |};
                               messages := [];
                               created_at := clock w |}]> (agents_store w);
                      clock := S (clock w);
                      uuids := S (uuids w);
                      next_oid := next_oid w + 3;
                      calls := calls w |})
              end
          end
      end.
Proof.
  unfold setup_agents.
  destruct (negb _); [reflexivity|].
  rewrite bind_run. unfold fresh_uuid. rewrite try_except_run, bind_run.
  unfold new at 1. cbv zeta.
  destruct (ConversationAgent _ _) as [cst|e];
    [|unfold raise; simpl; now rewrite Nat.add_0_r].
  rewrite bind_run. unfold new at 1.
  destruct (ShoppingTeam _ _ _ _ _) as [sst|e];
    [|unfold raise; simpl; now rewrite Nat.add_1_r].
  rewrite bind_run. unfold new at 1.
  destruct (ProductImageProcessingAgent _ _) as [ist|e].
  - simpl. replace (next_oid w + 1) with (S (next_oid w)) by lia.
    replace (next_oid w + 2) with (S (S (next_oid w))) by lia.
    replace (next_oid w + 3) with (S (S (S (next_oid w)))) by lia. reflexivity.
  - unfold raise. simpl. replace (next_oid w + 2) with (S (S (next_oid w))) by lia.
    reflexivity.
Qed.

Lemma truthy_empty str0 : truthy str0 = false <-> str0 = "".
Proof. destruct str0; simpl; split; congruence. Qed.

(** X11.  A configuration is answered with the 400 response "Missing
    required API keys" exactly when one of the three API keys is the empty
    string; the process is then left as it was: no id is drawn and no
    collaborator is constructed. *)
Theorem empty_key_is_rejected config w :
  (api_key_llm config = "" \/ api_key_search_tool config = "" \/
   api_key_firecrawl config = "")
  <-> setup_agents config w
      = (Raise (HTTPException 400 "Missing required API keys"), w).
Proof.
  rewrite setup_agents_run. rewrite <- !truthy_empty.
  destruct (truthy (api_key_llm config)), (truthy (api_key_search_tool config)),
    (truthy (api_key_firecrawl config)); simpl negb; cbv iota;
    try (split; [reflexivity | tauto]).
  split; [intros [?|[?|?]]; discriminate|]. cbv zeta.
  destruct (ConversationAgent _ _) as [cst|e].
  - destruct (ShoppingTeam _ _ _ _ _) as [sst|e].
    + destruct (ProductImageProcessingAgent _ _) as [ist|e]; [discriminate|].
      intros Heq. exfalso.
      assert (Hcode : 500 = 400) by congruence. vm_compute in Hcode. lia.
    + intros Heq. exfalso.
      assert (Hcode : 500 = 400) by congruence. vm_compute in Hcode. lia.
  - intros Heq. exfalso.
    assert (Hcode : 500 = 400) by congruence. vm_compute in Hcode. lia.
Qed.

(** X12.  A configuration that fails stores nothing: the store is as it
    was, and the response is either the 400 response for a missing key or
    the 500 response "Failed to initialize agents" carrying the error of
    the constructor that raised: that of the conversation agent, or, the
    constructors before it having succeeded, that of the shopping team or
    of the image processor. *)
Theorem failed_configuration_stores_nothing config w failure w' :
  setup_agents config w = (Raise failure, w') ->
  let conversation := ConversationAgent (api_key_llm config) (llm_mode config) in
  let team :=
    ShoppingTeam (api_key_llm config) (api_key_search_tool config)
      (web_search_mode config) (llm_mode config) (api_key_firecrawl config) in
  let image := ProductImageProcessingAgent (api_key_llm config) (llm_mode config) in
  agents_store w' = agents_store w /\
  (failure = HTTPException 400 "Missing required API keys" \/
   exists cause,
     failure = HTTPException 500 ("Failed to initialize agents: " ++ str cause) /\
     (conversation = Raise cause \/
      (exists cst, conversation = Ok cst) /\ team = Raise cause \/
      (exists cst, conversation = Ok cst) /\ (exists sst, team = Ok sst) /\
      image = Raise cause)).
Proof.
  rewrite setup_agents_run. intros Hsetup conversation team image.
  subst conversation team image. revert Hsetup.
  destruct (negb _); [intros [= <- <-]; split; [reflexivity | now left]|].
  cbv zeta.
  destruct (ConversationAgent _ _) as [cst|e].
  - destruct (ShoppingTeam _ _ _ _ _) as [sst|e].
    + destruct (ProductImageProcessingAgent _ _) as [ist|e]; [discriminate|].
      intros [= <- <-]. split; [reflexivity|]. right. exists e.
      split; [reflexivity|]. right. right. eauto.
    + intros [= <- <-]. split; [reflexivity|]. right. exists e.
      split; [reflexivity|]. right. left. eauto.
  - intros [= <- <-]. split; [reflexivity|]. right. exists e.
    split; [reflexivity|]. now left.
Qed.

(** X13.  A configuration with three non-empty keys whose three
    constructors succeed answers with the id drawn from [uuid4] and stores
    under it a bundle of three newly constructed objects, pairwise
    distinct and distinct from every object constructed before, with an
    empty history; the messages read for the new id are the empty list. *)
Theorem configuration_creates_empty_session config w cst sst ist :
  truthy (api_key_llm config) = true ->
  truthy (api_key_search_tool config) = true ->
  truthy (api_key_firecrawl config) = true ->
  ConversationAgent (api_key_llm config) (llm_mode config) = Ok cst ->
  ShoppingTeam (api_key_llm config) (api_key_search_tool config)
    (web_search_mode config) (llm_mode config) (api_key_firecrawl config) = Ok sst ->
  ProductImageProcessingAgent (api_key_llm config) (llm_mode config) = Ok ist ->
  exists w' s',
    setup_agents config w
      = (Ok {| sr_session_id := uuid4 (uuids w); sr_success := true;
               sr_message := "Agents initialized successfully" |}, w') /\
    agents_store w' !! uuid4 (uuids w) = Some s' /\
    messages s' = [] /\
    ostate (conversation_agent s') = cst /\
    ostate (shopping_team s') = sst /\
    ostate (image_processor s') = ist /\
    next_oid w <= oid (conversation_agent s') /\
    oid (conversation_agent s') < oid (shopping_team s') /\
    oid (shopping_team s') < oid (image_processor s') /\
    oid (image_processor s') < next_oid w' /\
    get_messages (uuid4 (uuids w)) w' = (Ok [], w').
Proof.
  intros Hllm Hsearch Hcrawl Hconv Hteam Himage.
  rewrite setup_agents_run, Hllm, Hsearch, Hcrawl. simpl negb. cbv iota zeta.
  rewrite Hconv, Hteam, Himage.
  do 2 eexists. split; [reflexivity|].
  split; [apply lookup_insert_eq|].
  simpl. repeat split; try lia.
  match goal with
  | |- get_messages ?k ?w1 = _ =>
      exact (get_messages_known w1 k _ (lookup_insert_eq _ _ _))
  end.
Qed.

(** X14.  Creating a session and deleting it again gives back the store:
    when a configuration succeeds and the id it drew was not in use,
    deleting that id succeeds and leaves the store that was there before
    the configuration. *)
Theorem delete_undoes_configuration config w answer w' :
  setup_agents config w = (Ok answer, w') ->
  agents_store w !! sr_session_id answer = None ->
  exists w'',
    delete_session (sr_session_id answer) w'
      = (Ok {| success := true; status_message := "Session deleted" |}, w'') /\
    agents_store w'' = agents_store w.
Proof.
  rewrite setup_agents_run.
  destruct (negb _); [discriminate|]. cbv zeta.
  destruct (ConversationAgent _ _) as [cst|e]; [|discriminate].
  destruct (ShoppingTeam _ _ _ _ _) as [sst|e]; [|discriminate].
  destruct (ProductImageProcessingAgent _ _) as [ist|e]; [|discriminate].
  intros [= <- <-]. simpl sr_session_id. intros Hfresh.
  eexists. split.
  - erewrite delete_session_known; [reflexivity|]. apply lookup_insert_eq.
  - simpl. rewrite delete_insert_eq. now apply delete_id.
Qed.

(** ** Clearing and uploading: the error paths *)

(** X15.  Clearing a known session whose conversation agent fails to
    reset is answered with the 500 response "Failed to clear
    conversation", but the history has been emptied all the same: the
    messages are dropped before [reset] is called and are not put back.
    The session is still there, the same bundle, with the conversation
    agent in the state the failed [reset] left it in. *)
Theorem failed_reset_still_empties_history w sid s cause cst :
  agents_store w !! sid = Some s ->
  reset (ostate (conversation_agent s)) = (Raise cause, cst) ->
  exists w' s',
    clear_conversation sid w
      = (Raise (HTTPException 500 ("Failed to clear conversation: " ++ str cause)), w') /\
    agents_store w' !! sid = Some s' /\
    messages s' = [] /\
    get_messages sid w' = (Ok [], w') /\
    same_bundle s s' /\
    ostate (conversation_agent s') = cst.
Proof.
  intros Hs Hreset. rewrite (clear_conversation_known _ _ _ Hs). cbv zeta.
  rewrite Hreset. simpl fst. simpl snd. cbv iota.
  do 2 eexists. split; [reflexivity|]. split; [apply world_after_lookup|].
  split; [reflexivity|].
  split; [erewrite get_messages_known by apply world_after_lookup; reflexivity|].
  split; [repeat split | reflexivity].
Qed.

(** X16.  An upload to a known session that is turned down before the
    image processor is reached leaves the process exactly as it was: a
    declared content type that does not start with "image/" is answered
    with the 400 response "File must be an image", and a file of an image
    type that cannot be read with the 500 response "Image processing
    error". *)
Theorem unprocessed_upload_changes_nothing w sid s file declared :
  agents_store w !! sid = Some s ->
  content_type file = Some declared ->
  (String.prefix "image/" declared = false ->
   upload_image sid file w = (Raise (HTTPException 400 "File must be an image"), w)) /\
  (forall cause,
     String.prefix "image/" declared = true ->
     file_read file = Raise cause ->
     upload_image sid file w
     = (Raise (HTTPException 500 ("Image processing error: " ++ str cause)), w)).
Proof.
  intros Hs Hct. rewrite (upload_image_known _ _ _ _ Hs), Hct. split.
  - now intros ->.
  - intros cause -> ->. reflexivity.
Qed.

(** X17.  An upload to a known session whose file is read but which the
    image processor rejects is answered with the 500 response "Image
    processing error"; the one call made is that of the image processor,
    on the content of the file and the empty text, and the history and
    the other collaborators of the session are as they were. *)
Theorem rejected_upload_keeps_history w sid s file declared file_content cause ist :
  agents_store w !! sid = Some s ->
  content_type file = Some declared ->
  String.prefix "image/" declared = true ->
  file_read file = Ok file_content ->
  process_image (ostate (image_processor s)) file_content "" = (Raise cause, ist) ->
  exists w' s',
    upload_image sid file w
      = (Raise (HTTPException 500 ("Image processing error: " ++ str cause)), w') /\
    agents_store w' !! sid = Some s' /\
    messages s' = messages s /\
    conversation_agent s' = conversation_agent s /\
    shopping_team s' = shopping_team s /\
    ostate (image_processor s') = ist /\
    calls w' = calls w ++ [Call_process_image (oid (image_processor s)) file_content ""].
Proof.
  intros Hs Hct Himage Hread Hproc.
  rewrite (upload_image_known _ _ _ _ Hs), Hct, Himage, Hread. simpl negb. cbv iota zeta.
  rewrite Hproc. simpl fst. simpl snd. cbv iota.
  do 2 eexists. split; [reflexivity|]. split; [apply world_after_lookup|].
  repeat split.
Qed.

(** X18.  An upload to a known session whose file declares no content
    type is not answered with an HTTP error response: the test of the
    content type raises outside the [try], the exception leaves the
    endpoint uncaught, and the process is as it was. *)
Theorem untyped_upload_raises_uncaught w sid s file :
  agents_store w !! sid = Some s ->
  content_type file = None ->
  exists msg,
    upload_image sid file w = (Raise (Exception msg), w).
Proof.
  intros Hs Hct. rewrite (upload_image_known _ _ _ _ Hs), Hct.
  eexists. reflexivity.
Qed.

End Further.

(** * The further properties on the concrete environment *)

(** A turn on "session-1" leaves "session-0" as it was. *)
Lemma request_leaves_other_sessions_witness :
  agents_store
    (@serve sample_runtime sample_collaborators
       (PostChat (text_request "session-1" "I want boots")) two_sessions_world)
    !! "session-0"
  = Some asked_session.
Proof.
  rewrite (@request_leaves_other_sessions sample_runtime sample_collaborators
             (PostChat (text_request "session-1" "I want boots"))
             two_sessions_world "session-0");
    [reflexivity | simpl; discriminate].
Defined.

Lemma only_deletion_changes_known_sessions_witness :
  is_Some (agents_store
             (@serve sample_runtime sample_collaborators (DeleteSession "session-0")
                two_sessions_world) !! "session-1")
  <-> is_Some (agents_store two_sessions_world !! "session-1") /\
      DeleteSession "session-0" <> DeleteSession "session-1".
Proof.
  exact (@only_deletion_changes_known_sessions sample_runtime sample_collaborators
           (DeleteSession "session-0") two_sessions_world "session-0" "session-1"
           eq_refl).
Defined.

Lemma unknown_session_is_rejected_witness :
  @process_chat sample_runtime sample_collaborators
    (text_request "session-7" "hello") sample_world
  = (Raise (HTTPException 404 "Session not found. Please configure agents first."),
     sample_world) /\
  @get_messages sample_collaborators "session-7" sample_world = (Ok [], sample_world).
Proof.
  destruct (@unknown_session_is_rejected sample_runtime sample_collaborators
              sample_world "session-7" eq_refl) as (Hchat & _ & _ & _ & Hget).
  split; [exact (Hchat (text_request "session-7" "hello") eq_refl) | exact Hget].
Defined.

Lemma history_only_grows_witness :
  exists s' appended,
    agents_store (@serve_all sample_runtime sample_collaborators mixed_requests
                    two_sessions_world) !! "session-0" = Some s' /\
    messages s' = messages asked_session ++ appended /\
    same_bundle asked_session s'.
Proof.
  exact (@history_only_grows sample_runtime sample_collaborators mixed_requests
           two_sessions_world "session-0" asked_session eq_refl eq_refl).
Defined.

Lemma response_matches_history_witness :
  exists s s' said reply_ts,
    agents_store asked_world !! "session-0" = Some s /\
    agents_store
      (snd (@process_chat sample_runtime sample_collaborators
              (text_request "session-0" "size 10, under $100") asked_world))
      !! "session-0" = Some s' /\
    role said = "user" /\
    (("product_search" = "conversation" /\
      false = true /\
      Some "<ul>I want running shoes;size 10, under $100</ul>" = None /\
      messages s'
        = messages s ++ [said; assistant_message "Searching for products" reply_ts]) \/
     ("product_search" = "product_search" /\
      false = false /\
      exists html product_ts,
        Some "<ul>I want running shoes;size 10, under $100</ul>" = Some html /\
        messages s'
          = messages s ++
            [said; assistant_message "Searching for products" reply_ts;
             product_message html product_ts])).
Proof.
  refine (@response_matches_history sample_runtime sample_collaborators asked_world
           (text_request "session-0" "size 10, under $100")
           {| type := "product_search";
              resp_message := "Searching for products";
              products_html := Some "<ul>I want running shoes;size 10, under $100</ul>";
              continue_conversation := false;
              resp_timestamp := "2025-01-01T00:00:07" |}
           (snd (@process_chat sample_runtime sample_collaborators
                   (text_request "session-0" "size 10, under $100") asked_world))
           _); vm_compute; reflexivity.
Defined.

Lemma failed_turn_statuses_witness :
  exists s s' cause appended,
    agents_store asked_world !! "session-0" = Some s /\
    HTTPException 500 "Processing error: search failed"
      = HTTPException 500 ("Processing error: " ++ str cause) /\
    agents_store
      (snd (@process_chat sample_runtime sample_collaborators
              (text_request "session-0" "out of stock") asked_world))
      !! "session-0" = Some s' /\
    messages s' = messages s ++ appended /\
    length appended <= 2 /\
    Forall (fun m => msg_type m = None) appended.
Proof.
  destruct (@failed_turn_statuses sample_runtime sample_collaborators asked_world
              (text_request "session-0" "out of stock")
              (HTTPException 500 "Processing error: search failed")
              (snd (@process_chat sample_runtime sample_collaborators
                      (text_request "session-0" "out of stock") asked_world))
              ltac:(vm_compute; reflexivity)) as [(Hunknown & _)|Hknown].
  - vm_compute in Hunknown. discriminate Hunknown.
  - exact Hknown.
Defined.

Lemma turn_calls_in_order_witness :
  exists image_calls rest,
    calls (snd (@process_chat sample_runtime sample_collaborators
                  (image_request "session-0" "and in size 10" "data:image/png;base64,aGk=")
                  asked_world))
      = calls asked_world ++ image_calls ++ rest /\
    Forall (fun ev => is_image_call ev = true) image_calls /\
    (rest = [] \/
     (exists user_input, rest = [Call_process_query 0 user_input]) \/
     (exists user_input conversation_response payload,
        rest = [Call_process_query 0 user_input;
                @Call_run sample_collaborators 1 payload] /\
        fst (sample_process_query ["I want running shoes"] user_input)
          = Ok conversation_response /\
        have_further_conversation conversation_response = false /\
        data conversation_response = Some payload)).
Proof.
  refine (@turn_calls_in_order sample_runtime sample_collaborators asked_world
           (image_request "session-0" "and in size 10" "data:image/png;base64,aGk=")
           asked_session _); vm_compute; reflexivity.
Defined.

(** The search fails, the dialogue has moved on all the same. *)
Lemma dialogue_state_after_turn_witness :
  exists s',
    agents_store
      (snd (@process_chat sample_runtime sample_collaborators
              (text_request "session-0" "out of stock") asked_world))
      !! "session-0" = Some s' /\
    ostate (conversation_agent s') = ["I want running shoes"; "out of stock"].
Proof.
  destruct (@dialogue_state_after_turn sample_runtime sample_collaborators asked_world
              (text_request "session-0" "out of stock") asked_session eq_refl)
    as (s' & Hs' & Hthen & _).
  exists s'. split; [exact Hs'|].
  exact (Hthen "out of stock" asked_world eq_refl).
Defined.

Lemma plain_turn_uses_message_verbatim_witness :
  exists s' later more,
    agents_store
      (snd (@process_chat sample_runtime sample_collaborators
              (image_request "session-0" "I want running shoes" "") sample_world))
      !! "session-0" = Some s' /\
    messages s'
      = [] ++ user_message "I want running shoes" "2025-01-01T00:00:01" :: later /\
    calls
      (snd (@process_chat sample_runtime sample_collaborators
              (image_request "session-0" "I want running shoes" "") sample_world))
      = [] ++ Call_process_query 0 "I want running shoes" :: more /\
    (more = [] \/ exists payload, more = [@Call_run sample_collaborators 1 payload]) /\
    image_processor s' = image_processor sample_session.
Proof.
  exact (@plain_turn_uses_message_verbatim sample_runtime sample_collaborators
           sample_world (image_request "session-0" "I want running shoes" "")
           sample_session eq_refl (or_intror eq_refl)).
Defined.

Lemma payload_without_comma_is_rejected_witness :
  @process_chat sample_runtime sample_collaborators
    (image_request "session-0" "these shoes" "aGk=") sample_world
  = (Raise (HTTPException 500 "Processing error: list index out of range"),
     sample_world).
Proof.
  refine (@payload_without_comma_is_rejected sample_runtime sample_collaborators
           sample_world (image_request "session-0" "these shoes" "aGk=")
           sample_session "aGk=" _ _ _ _); vm_compute; reflexivity.
Defined.

Lemma empty_key_is_rejected_witness :
  @setup_agents sample_runtime sample_collaborators incomplete_config sample_world
  = (Raise (HTTPException 400 "Missing required API keys"), sample_world).
Proof.
  apply (proj1 (@empty_key_is_rejected sample_runtime sample_collaborators
                  incomplete_config sample_world)).
  right. right. reflexivity.
Defined.

(** The fragile shopping team cannot be built for the search tool asked
    for: the id is drawn, the conversation agent is constructed, nothing
    is stored. *)
Lemma failed_configuration_stores_nothing_witness :
  agents_store
    (snd (@setup_agents sample_runtime fragile_collaborators unsupported_config
            fragile_world))
    = agents_store fragile_world /\
  (HTTPException 500 "Failed to initialize agents: unknown search tool"
     = HTTPException 400 "Missing required API keys" \/
   exists cause,
     HTTPException 500 "Failed to initialize agents: unknown search tool"
     = HTTPException 500 ("Failed to initialize agents: " ++ str cause) /\
     (@ConversationAgent fragile_collaborators "sk-llm" "OpenAI" = Raise cause \/
      (exists cst, @ConversationAgent fragile_collaborators "sk-llm" "OpenAI" = Ok cst) /\
      @ShoppingTeam fragile_collaborators "sk-llm" "key" "AltaVista" "OpenAI" "fc-crawl"
        = Raise cause \/
      (exists cst, @ConversationAgent fragile_collaborators "sk-llm" "OpenAI" = Ok cst) /\
      (exists sst,
         @ShoppingTeam fragile_collaborators "sk-llm" "key" "AltaVista" "OpenAI" "fc-crawl"
         = Ok sst) /\
      @ProductImageProcessingAgent fragile_collaborators "sk-llm" "OpenAI" = Raise cause)).
Proof.
  refine (@failed_configuration_stores_nothing sample_runtime fragile_collaborators
           unsupported_config fragile_world
           (HTTPException 500 "Failed to initialize agents: unknown search tool")
           (snd (@setup_agents sample_runtime fragile_collaborators unsupported_config
                   fragile_world))
           _); vm_compute; reflexivity.
Defined.

Lemma configuration_creates_empty_session_witness :
  exists w' s',
    @setup_agents sample_runtime sample_collaborators sample_config asked_world
      = (Ok {| sr_session_id := "session-1"; sr_success := true;
               sr_message := "Agents initialized successfully" |}, w') /\
    agents_store w' !! "session-1" = Some s' /\
    messages s' = [] /\
    ostate (conversation_agent s') = [] /\
    ostate (shopping_team s') = 0 /\
    ostate (image_processor s') = 0 /\
    3 <= oid (conversation_agent s') /\
    oid (conversation_agent s') < oid (shopping_team s') /\
    oid (shopping_team s') < oid (image_processor s') /\
    oid (image_processor s') < next_oid w' /\
    @get_messages sample_collaborators "session-1" w' = (Ok [], w').
Proof.
  refine (@configuration_creates_empty_session sample_runtime sample_collaborators
           sample_config asked_world [] 0 0
           _ _ _ _ _ _); vm_compute; reflexivity.
Defined.

Lemma delete_undoes_configuration_witness :
  exists w'',
    @delete_session sample_collaborators "session-1" two_sessions_world
      = (Ok {| success := true; status_message := "Session deleted" |}, w'') /\
    agents_store w'' = agents_store asked_world.
Proof.
  refine (@delete_undoes_configuration sample_runtime sample_collaborators
           sample_config asked_world
           {| sr_session_id := "session-1"; sr_success := true;
              sr_message := "Agents initialized successfully" |}
           two_sessions_world _ _); vm_compute; reflexivity.
Defined.

Lemma failed_reset_still_empties_history_witness :
  exists w' s',
    @clear_conversation fragile_collaborators "session-0" fragile_world
      = (Raise (HTTPException 500 "Failed to clear conversation: nothing to reset"), w') /\
    agents_store w' !! "session-0" = Some s' /\
    messages s' = [] /\
    @get_messages fragile_collaborators "session-0" w' = (Ok [], w') /\
    same_bundle (fragile_session [] [user_message "hello" "2025-01-01T00:00:01"]) s' /\
    ostate (conversation_agent s') = [].
Proof.
  refine (@failed_reset_still_empties_history fragile_collaborators fragile_world
           "session-0" (fragile_session [] [user_message "hello" "2025-01-01T00:00:01"])
           (Exception "nothing to reset") [] _ _); vm_compute; reflexivity.
Defined.

Lemma unprocessed_upload_changes_nothing_witness :
  @upload_image sample_collaborators "session-0" text_upload asked_world
    = (Raise (HTTPException 400 "File must be an image"), asked_world) /\
  @upload_image sample_collaborators "session-0" unreadable_upload asked_world
    = (Raise (HTTPException 500 "Image processing error: connection lost"), asked_world).
Proof.
  split.
  - exact (proj1 (@unprocessed_upload_changes_nothing sample_collaborators asked_world
                    "session-0" asked_session text_upload "text/plain" eq_refl eq_refl)
             eq_refl).
  - exact (proj2 (@unprocessed_upload_changes_nothing sample_collaborators asked_world
                    "session-0" asked_session unreadable_upload "image/png"
                    eq_refl eq_refl)
             (Exception "connection lost") eq_refl eq_refl).
Defined.

Lemma rejected_upload_keeps_history_witness :
  exists w' s',
    @upload_image sample_collaborators "session-0" empty_upload asked_world
      = (Raise (HTTPException 500 "Image processing error: empty image"), w') /\
    agents_store w' !! "session-0" = Some s' /\
    messages s' = messages asked_session /\
    conversation_agent s' = conversation_agent asked_session /\
    shopping_team s' = shopping_team asked_session /\
    ostate (image_processor s') = 0 /\
    calls w' = calls asked_world ++ [Call_process_image 2 [] ""].
Proof.
  refine (@rejected_upload_keeps_history sample_collaborators asked_world "session-0"
           asked_session empty_upload "image/png" [] (Exception "empty image") 0
           _ _ _ _ _); vm_compute; reflexivity.
Defined.

Lemma untyped_upload_raises_uncaught_witness :
  exists msg,
    @upload_image sample_collaborators "session-0" untyped_upload asked_world
    = (Raise (Exception msg), asked_world).
Proof.
  refine (@untyped_upload_raises_uncaught sample_collaborators asked_world "session-0"
           asked_session untyped_upload _ _); vm_compute; reflexivity.
Defined.
